(** * bot.py: download-job orchestration of the YouTube/TikTok bot

    A shallow embedding of [bot.py] and the properties of its progress bar,
    option resolver, job runner and request coordinator.

    Python [str] values are UTF-8 byte strings; the operations the program
    applies to them ([startswith], [split] and [replace] with ASCII
    arguments, concatenation, repetition) act on the encoded form exactly as
    they act on code points.  A Python [float] is an exact rational;
    [Binary64] redoes the one float computation of the program, the count
    of filled cells, in IEEE arithmetic, and the two are shown to agree on
    every double from 0 to 100. *)

From Stdlib Require Import Ascii ZArith QArith Qabs Qround SpecFloat.
From stdpp Require Import gmap strings list pretty.

Open Scope Z_scope.

(** ** Python strings *)

Module Py.

(** [s * n]: a count below one gives the empty string. *)
Definition str_mul (s : string) (n : Z) : string :=
  Nat.iter (Z.to_nat n) (String.append s) "".

(** [s.startswith(p)] *)
Definition startswith (s p : string) : bool := String.prefix p s.

(** [s.split(sep, 1)] for a one-character separator: at most one cut, at
    the leftmost occurrence. *)
Fixpoint split1 (sep : Ascii.ascii) (s : string) : list string :=
  match s with
  | EmptyString => [EmptyString]
  | String c r =>
      if Ascii.eqb c sep then [EmptyString; r]
      else match split1 sep r with
           | h :: t => String c h :: t
           | [] => [String c EmptyString]
           end
  end.

(** [s.replace(old, new)] for a one-character [old]. *)
Fixpoint replace (old : Ascii.ascii) (new : string) (s : string) : string :=
  match s with
  | EmptyString => EmptyString
  | String c r =>
      if Ascii.eqb c old then new +:+ replace old new r
      else String c (replace old new r)
  end.

(** Rounding to the nearest integer, ties to even, as [format] does. *)
Definition round_half_even (x : Q) : Z :=
  let f := Qfloor x in
  match (x - inject_Z f ?= 1 # 2)%Q with
  | Lt => f
  | Gt => f + 1
  | Eq => if Z.even f then f else f + 1
  end.

(** [f"{x:.1f}"] *)
Definition format_1f (x : Q) : string :=
  let n := round_half_even (Qabs x * 10) in
  (if Qlt_le_dec x 0 then "-" else "")
    +:+ pretty (n / 10) +:+ "." +:+ pretty (n mod 10).

(** The escape [\n]. *)
Definition NEWLINE : string := String (ascii_of_nat 10) EmptyString.

(** [str(x)] for an optional string: [None] prints as its name. *)
Definition str_of_optional (x : option string) : string :=
  match x with Some s => s | None => "None" end.

End Py.

(** ** Constants *)

Module DownloadOption.
Definition VIDEO_HIGH : string := "video_high".
Definition VIDEO_LOW : string := "video_low".
Definition AUDIO : string := "audio".
End DownloadOption.

(** ** Progress bar *)

Definition FULL_BLOCK : string := "█".
Definition LIGHT_SHADE : string := "░".

(** [filled_length = int(width * percent // 100)] *)
Definition filled_length (percent : Q) (width : Z) : Z :=
  Qfloor (inject_Z width * percent / 100).

(** [bar = '█' * filled_length + '░' * (width - filled_length)] *)
Definition progress_cells (percent : Q) (width : Z) : string :=
  Py.str_mul FULL_BLOCK (filled_length percent width)
    +:+ Py.str_mul LIGHT_SHADE (width - filled_length percent width).

(** [create_progress_bar] *)
Definition create_progress_bar (percent : Q) (width : Z) : string :=
  "[" +:+ progress_cells percent width +:+ "] " +:+ Py.format_1f percent +:+ "%".

(** The default of the [width] argument. *)
Definition default_width : Z := 20.

(** Reading a bar back: one cell per block character, [true] for a filled
    cell.  Anything that is not a sequence of the two block characters has
    no reading. *)
Fixpoint cells (bar : string) : option (list bool) :=
  match bar with
  | EmptyString => Some []
  | String a (String b (String c rest)) =>
      if String.eqb (String a (String b (String c EmptyString))) FULL_BLOCK
      then cons true <$> cells rest
      else if String.eqb (String a (String b (String c EmptyString))) LIGHT_SHADE
      then cons false <$> cells rest
      else None
  | _ => None
  end.

(** ** The float computation in binary64 *)

Module Binary64.

Definition prec : Z := 53.
Definition emax : Z := 1024.

(** The double of an integer. *)
Definition of_int (n : Z) : spec_float := binary_normalize prec emax n 0 false.

(** [float] of the numeral with one fractional digit whose value is
    [k / 10]: the double nearest to it. *)
Definition of_tenths (k : Z) : spec_float :=
  SFdiv prec emax (of_int k) (of_int 10).

(** The number a finite double stands for. *)
Definition value (x : spec_float) : option Q :=
  match x with
  | S754_zero _ => Some 0%Q
  | S754_finite s m e =>
      let n := if s then Z.neg m else Z.pos m in
      Some (if 0 <=? e then inject_Z (n * 2 ^ e)
            else Qmake n (Z.to_pos (2 ^ (- e))))
  | S754_infinity _ | S754_nan => None
  end.

(** [int(x // d)] for a finite [x] and a positive integer [d]: the floor of
    the exact quotient.  The float floor division takes the exact
    remainder off [x] and divides; below [2 ^ 53] the difference and the
    quotient are doubles, so nothing is rounded. *)
Definition floordiv (x : spec_float) (d : Z) : option Z :=
  match x with
  | S754_zero _ => Some 0
  | S754_finite s m e =>
      let n := if s then Z.neg m else Z.pos m in
      Some (if 0 <=? e then (n * 2 ^ e) / d else n / (d * 2 ^ (- e)))
  | S754_infinity _ | S754_nan => None
  end.

(** [int(width * percent // 100)] with the product rounded to a double. *)
Definition filled_length (percent : spec_float) (width : Z) : option Z :=
  floordiv (SFmul prec emax (of_int width) percent) 100.

End Binary64.

(** ** Exceptions, the world and the effect monad *)

(** Every exception the program meets is an instance of [Exception], so
    each [except Exception] clause catches all of them. *)
Inductive exn :=
| Exception (msg : string)
| ValueError (msg : string)
| KeyError (msg : string)
| FileNotFoundError (msg : string)
| TelegramAPIError (msg : string).

(** [str(e)] *)
Definition str (e : exn) : string :=
  match e with
  | Exception m | ValueError m | KeyError m
  | FileNotFoundError m | TelegramAPIError m => m
  end.

Inductive result (A : Type) :=
| Ok (a : A)
| Raise (e : exn).
Arguments Ok {A} a.
Arguments Raise {A} e.

Record InlineKeyboardButton := {
  text : string;
  callback_data : string;
}.

(** The four requests the program sends to the chat. *)
Inductive SinkCall :=
| SendMessage (chat_id : Z) (body : string)
    (reply_markup : option (list (list InlineKeyboardButton)))
| EditMessageText (chat_id message_id : Z) (body : string)
| SendVideo (chat_id : Z) (video : string)
| SendAudio (chat_id : Z) (audio : string).

Inductive outcome :=
| Accepted
| Rejected (reason : string).

Inductive level := INFO | ERROR.

(** A progress sample of the extraction engine: the string-valued entries
    of the dictionary the engine hands to its hooks. *)
Abbreviation sample := (gmap string string).

(** [lambda d: asyncio.create_task(progress_hook(d, chat_id, message_id))]:
    the closure is its two captured variables. *)
Record hook := {
  hook_chat_id : Z;
  hook_message_id : Z;
}.

(** [ydl_opts]: the dictionary has literal keys only; the two keys that are
    set on some paths and not on others are optional fields. *)
Record YdlOpts := {
  outtmpl : string;
  progress_hooks : list hook;
  restrictfilenames : bool;
  format : option string;
  postprocessors : option (list (gmap string string));
}.

(** What the handler can observe and change: the files of the working
    directory with their sizes, the requests made to the chat with their
    outcomes (oldest first), the log records, and the tasks created for
    progress samples, which the event loop runs on its own. *)
Record World := {
  files : gmap string N;
  calls : list (SinkCall * outcome);
  log : list (level * string);
  tasks : list (sample * hook);
}.

(** What the program does not decide: the probe for the transcoder, the
    [float] builtin on strings ([None] where it raises), the extraction
    engine (its result, the files it leaves and the samples it emits), and
    the chat's answer to each request given the requests before it.  The
    requests of one run have pairwise different histories, so the
    functions [sink] range over every sequence of answers a run can
    meet, whatever else goes on in the chat meanwhile. *)
Record Env := {
  FFMPEG_AVAILABLE : bool;
  float : string -> option Q;
  extract_info :
    string -> YdlOpts -> gmap string N ->
    result string * gmap string N * list sample;
  sink : list (SinkCall * outcome) -> SinkCall -> outcome;
  new_message_id : list (SinkCall * outcome) -> Z;
}.

Definition M (A : Type) : Type := World -> result A * World.

Definition ret {A} (a : A) : M A := fun w => (Ok a, w).
Definition raise {A} (e : exn) : M A := fun w => (Raise e, w).
Definition bind {A B} (m : M A) (k : A -> M B) : M B :=
  fun w => match m w with
           | (Ok a, w') => k a w'
           | (Raise e, w') => (Raise e, w')
           end.

(** [try: body  except Exception as e: handler e] *)
Definition try_except {A} (body : M A) (handler : exn -> M A) : M A :=
  fun w => match body w with
           | (Ok a, w') => (Ok a, w')
           | (Raise e, w') => handler e w'
           end.

Definition lift {A} (r : result A) : M A := fun w => (r, w).

#[export] Instance M_ret : MRet M := @ret.
#[export] Instance M_bind : MBind M := fun A B k m => bind m k.

Definition logger (l : level) (msg : string) : M unit :=
  fun w => (Ok tt, {| files := files w; calls := calls w;
                      log := log w ++ [(l, msg)]; tasks := tasks w |}).

Definition record_call (c : SinkCall) (o : outcome) (w : World) : World :=
  {| files := files w; calls := calls w ++ [(c, o)];
     log := log w; tasks := tasks w |}.

(** One awaited request to the chat: the outcome is the chat's; a rejected
    request raises with the chat's reason. *)
Definition request (E : Env) (c : SinkCall) : M unit :=
  fun w => match sink E (calls w) c with
           | Accepted => (Ok tt, record_call c Accepted w)
           | Rejected r => (Raise (TelegramAPIError r), record_call c (Rejected r) w)
           end.

(** [bot.send_message]: the sent message carries its identifier. *)
Definition send_message (E : Env) (chat_id : Z) (body : string)
    (reply_markup : option (list (list InlineKeyboardButton))) : M Z :=
  fun w => (request E (SendMessage chat_id body reply_markup);;
            ret (new_message_id E (calls w))) w.

Definition edit_message_text (E : Env) (chat_id message_id : Z)
    (body : string) : M unit :=
  request E (EditMessageText chat_id message_id body).

Definition send_video (E : Env) (chat_id : Z) (video : string) : M unit :=
  request E (SendVideo chat_id video).

Definition send_audio (E : Env) (chat_id : Z) (audio : string) : M unit :=
  request E (SendAudio chat_id audio).

Definition no_such_file (p : string) : exn :=
  FileNotFoundError ("[Errno 2] No such file or directory: '" +:+ p +:+ "'").

(** [os.path.exists], [os.path.getsize], [os.remove] *)
Definition path_exists (p : string) : M bool :=
  fun w => (Ok (bool_decide (is_Some (files w !! p))), w).

Definition getsize (p : string) : M N :=
  fun w => match files w !! p with
           | Some n => (Ok n, w)
           | None => (Raise (no_such_file p), w)
           end.

Definition remove (p : string) : M unit :=
  fun w => match files w !! p with
           | Some _ => (Ok tt, {| files := delete p (files w); calls := calls w;
                                  log := log w; tasks := tasks w |})
           | None => (Raise (no_such_file p), w)
           end.

(** [d[key]]: the message of a [KeyError] is the quoted key. *)
Definition getitem (d : gmap string string) (key : string) : result string :=
  match d !! key with
  | Some v => Ok v
  | None => Raise (KeyError ("'" +:+ key +:+ "'"))
  end.

(** ** The program *)

Section Bot.

Variable E : Env.

(** [float(s)] *)
Definition to_float (s : string) : result Q :=
  match float E s with
  | Some q => Ok q
  | None => Raise (ValueError
              ("could not convert string to float: '" +:+ s +:+ "'"))
  end.

(** The status line [progress_hook] renders for one sample. *)
Definition progress_message (percent : Q) (speed eta : string) : string :=
  let progress_bar := create_progress_bar percent default_width in
  "Скачивание: " +:+ progress_bar +:+ Py.NEWLINE
    +:+ "Скорость: " +:+ speed +:+ " | Осталось: " +:+ eta.

(** [progress_hook]: the body of the task created for one sample. *)
Definition progress_hook (d : sample) (chat_id message_id : Z) : M unit :=
  status ← lift (getitem d "status");
  if String.eqb status "downloading" then
    percent_str ← lift (getitem d "_percent_str");
    percent ← lift (to_float (Py.replace "%"%char "" percent_str));
    speed ← lift (getitem d "_speed_str");
    eta ← lift (getitem d "_eta_str");
    try_except
      (edit_message_text E chat_id message_id
         (progress_message percent speed eta))
      (fun e => logger ERROR ("Error updating progress: " +:+ str e))
  else ret tt.

(** [send_welcome] *)
Definition send_welcome (chat_id user_id : Z) : M unit :=
  send_message E chat_id
    "Отправьте мне ссылку на видео YouTube или TikTok, и я скачаю его для вас."
    None;;
  logger INFO ("User " +:+ pretty user_id +:+ " started the bot").

(** The payload of a button: [f"{option}:{url}"]. *)
Definition payload (option url : string) : string :=
  option +:+ ":" +:+ url.

(** The keyboard [handle_url] builds before it sends anything. *)
Definition keyboard (url : string) : list (list InlineKeyboardButton) :=
  [ [ {| text := "Видео (Высокое качество)";
         callback_data := payload DownloadOption.VIDEO_HIGH url |};
      {| text := "Видео (Низкое качество)";
         callback_data := payload DownloadOption.VIDEO_LOW url |} ] ]
  ++ (if FFMPEG_AVAILABLE E
      then [ [ {| text := "Только аудио";
                  callback_data := payload DownloadOption.AUDIO url |} ] ]
      else []).

(** [handle_url]: [message_text] is [message.text], absent on a message
    without text. *)
Definition handle_url (message_text : option string) (chat_id user_id : Z)
    : M unit :=
  let url := Py.str_of_optional message_text in
  logger INFO ("Received URL: " +:+ url +:+ " from user " +:+ pretty user_id);;
  (if FFMPEG_AVAILABLE E then ret tt
   else send_message E chat_id
          "Внимание: FFmpeg не установлен. Опция 'Только аудио' недоступна."
          None;; ret tt);;
  send_message E chat_id "Выберите формат загрузки:" (Some (keyboard url));;
  ret tt.

(** The reasons of the failures the program raises itself. *)
Definition UNAVAILABLE : string :=
  "Опция 'Только аудио' недоступна без FFmpeg.".
Definition MISSING : string :=
  "Файл не был скачан или имеет неожиданное имя: ".
Definition EMPTY : string := "Скачанный файл пуст".

(** [get_ydl_opts] *)
Definition get_ydl_opts (option : string) (chat_id message_id : Z)
    : result YdlOpts :=
  let hooks := [ {| hook_chat_id := chat_id; hook_message_id := message_id |} ] in
  if Py.startswith option "video" then
    Ok {| outtmpl := "%(title)s.%(ext)s";
          progress_hooks := hooks;
          restrictfilenames := true;
          format := Some (if String.eqb option DownloadOption.VIDEO_HIGH
                          then "bestvideo+bestaudio/best"
                          else "worstvideo+worstaudio/worst");
          postprocessors := Some [ {[ "key" := "FFmpegVideoConvertor";
                                      "preferedformat" := "mp4" ]} ] |}
  else if String.eqb option DownloadOption.AUDIO then
    if FFMPEG_AVAILABLE E then
      Ok {| outtmpl := "%(title)s.%(ext)s";
            progress_hooks := hooks;
            restrictfilenames := true;
            format := Some "bestaudio/best";
            postprocessors := Some [ {[ "key" := "FFmpegExtractAudio";
                                        "preferredcodec" := "mp3";
                                        "preferredquality" := "192" ]} ] |}
    else Raise (Exception UNAVAILABLE)
  else
    Ok {| outtmpl := "%(title)s.%(ext)s";
          progress_hooks := hooks;
          restrictfilenames := true;
          format := None;
          postprocessors := None |}.

(** The engine call inside the [with] block: the engine leaves its files,
    every hook of the options is called on every sample and creates a
    task, and the call returns the title or raises. *)
Definition run_engine (url : string) (ydl_opts : YdlOpts) : M string :=
  fun w =>
    let '(r, fs, samples) := extract_info E url ydl_opts (files w) in
    (r, {| files := fs; calls := calls w; log := log w;
           tasks := tasks w ++
             (d ← samples; h ← progress_hooks ydl_opts; [(d, h)]) |}).

(** The name the artifact is expected under. *)
Definition derived_name (title : string) (ydl_opts : YdlOpts)
    : result string :=
  match postprocessors ydl_opts with
  | Some (p :: _) =>
      match getitem p "key" with
      | Ok k => Ok (if String.eqb k "FFmpegExtractAudio"
                    then title +:+ ".mp3" else title +:+ ".mp4")
      | Raise e => Raise e
      end
  | Some [] | None => Ok (title +:+ ".mp4")
  end.

(** [download_file] *)
Definition download_file (url : string) (ydl_opts : YdlOpts) : M string :=
  logger INFO ("Starting download for URL: " +:+ url);;
  try_except
    (title ← run_engine url ydl_opts;
     downloaded_file ← lift (derived_name title ydl_opts);
     found ← path_exists downloaded_file;
     (if found : bool then ret tt
      else logger ERROR ("File not found: " +:+ downloaded_file);;
           raise (Exception (MISSING +:+ downloaded_file)));;
     file_size ← getsize downloaded_file;
     logger INFO ("Downloaded file: " +:+ downloaded_file +:+ ", size: "
                    +:+ pretty file_size +:+ " bytes");;
     (if N.eqb file_size 0 then raise (Exception EMPTY) else ret tt);;
     ret downloaded_file)
    (fun e => logger ERROR ("Error in download_file: " +:+ str e);;
              raise e).

(** The texts the user is shown at the start and at the end of a request. *)
Definition STARTING : string := "Начинаю загрузку...".
Definition COMPLETED : string := "Загрузка завершена!".
Definition DOWNLOAD_ERROR : string := "Произошла ошибка при скачивании: ".
Definition DELIVERY_ERROR : string := "Произошла ошибка при отправке файла: ".

(** [send_file]: building the [FSInputFile] opens nothing and cannot
    fail, so the first effect of the [try] block is the delivery call. *)
Definition send_file (chat_id : Z) (file_path option : string) : M unit :=
  try_except
    ((if Py.startswith option "video"
      then send_video E chat_id file_path
      else send_audio E chat_id file_path);;
     logger INFO ("File sent successfully: " +:+ file_path))
    (fun e => logger ERROR ("Error sending file: " +:+ str e);;
              send_message E chat_id
                (DELIVERY_ERROR +:+ str e) None;;
              ret tt).

(** [option, url = data.split(':', 1)] *)
Definition unpack2 (l : list string) : result (string * string) :=
  match l with
  | [a; b] => Ok (a, b)
  | [] | [_] =>
      Raise (ValueError ("not enough values to unpack (expected 2, got "
                           +:+ pretty (length l) +:+ ")"))
  | _ => Raise (ValueError "too many values to unpack (expected 2)")
  end.

(** The [try] block of [callback_query_handler]. *)
Definition job (option url : string) (chat_id message_id : Z) : M unit :=
  ydl_opts ← lift (get_ydl_opts option chat_id message_id);
  downloaded_file ← download_file url ydl_opts;
  send_file chat_id downloaded_file option;;
  remove downloaded_file;;
  edit_message_text E chat_id message_id COMPLETED.

(** [callback_query_handler]: [data] is [callback_query.data] and
    [chat_id] is [callback_query.message.chat.id]. *)
Definition callback_query_handler (data : string) (chat_id : Z) : M unit :=
  '(option, url) ← lift (unpack2 (Py.split1 ":"%char data));
  message_id ← send_message E chat_id STARTING None;
  try_except
    (job option url chat_id message_id)
    (fun e =>
       send_message E chat_id (DOWNLOAD_ERROR +:+ str e) None;;
       logger ERROR ("Error for user " +:+ pretty chat_id +:+ ": " +:+ str e)).

End Bot.

(** ** Vocabulary of the properties *)

(** The three options of class [DownloadOption]. *)
Inductive DownloadProfile := VideoHigh | VideoLow | AudioOnly.

Definition tag (p : DownloadProfile) : string :=
  match p with
  | VideoHigh => DownloadOption.VIDEO_HIGH
  | VideoLow => DownloadOption.VIDEO_LOW
  | AudioOnly => DownloadOption.AUDIO
  end.

(** What each option stands for: the format selector, the post-processing
    steps and the extension of the artifact. *)
Definition selector (p : DownloadProfile) : string :=
  match p with
  | VideoHigh => "bestvideo+bestaudio/best"
  | VideoLow => "worstvideo+worstaudio/worst"
  | AudioOnly => "bestaudio/best"
  end.

Definition steps (p : DownloadProfile) : list (gmap string string) :=
  match p with
  | VideoHigh | VideoLow =>
      [ {[ "key" := "FFmpegVideoConvertor"; "preferedformat" := "mp4" ]} ]
  | AudioOnly =>
      [ {[ "key" := "FFmpegExtractAudio"; "preferredcodec" := "mp3";
           "preferredquality" := "192" ]} ]
  end.

Definition extension (p : DownloadProfile) : string :=
  match p with
  | VideoHigh | VideoLow => ".mp4"
  | AudioOnly => ".mp3"
  end.

(** The name the artifact of a request is looked for under. *)
Definition artifact_name (option title : string) : string :=
  title +:+ (if String.eqb option DownloadOption.AUDIO then ".mp3" else ".mp4").

(** [c in s] for a character [c]. *)
Fixpoint contains (c : Ascii.ascii) (s : string) : bool :=
  match s with
  | EmptyString => false
  | String a r => Ascii.eqb a c || contains c r
  end.

(** The requests of one run of [callback_query_handler]. *)
Definition starting (chat_id : Z) : SinkCall :=
  SendMessage chat_id STARTING None.

Definition delivery (option : string) (chat_id : Z) (file : string)
    : SinkCall :=
  if Py.startswith option "video" then SendVideo chat_id file
  else SendAudio chat_id file.

Definition notice (chat_id : Z) (reason : string) : SinkCall :=
  SendMessage chat_id (DELIVERY_ERROR +:+ reason) None.

Definition completed (chat_id message_id : Z) : SinkCall :=
  EditMessageText chat_id message_id COMPLETED.

Definition failure (chat_id : Z) (reason : string) : SinkCall :=
  SendMessage chat_id (DOWNLOAD_ERROR +:+ reason) None.

(** The ways the [try] block of the handler can go, as the requests it
    makes after the artifact [file] is there and the result it ends with:
    it fails before any request, or it delivers (or reports that it could
    not) and goes on to the completed edit. *)
Inductive job_shape (option : string) (chat_id message_id : Z)
    : result unit → list (SinkCall * outcome) → Prop :=
| job_early e :
    job_shape option chat_id message_id (Raise e) []
| job_done file :
    job_shape option chat_id message_id (Ok tt)
      [ (delivery option chat_id file, Accepted);
        (completed chat_id message_id, Accepted) ]
| job_edit_rejected file r :
    job_shape option chat_id message_id (Raise (TelegramAPIError r))
      [ (delivery option chat_id file, Accepted);
        (completed chat_id message_id, Rejected r) ]
| job_undelivered file r :
    job_shape option chat_id message_id (Ok tt)
      [ (delivery option chat_id file, Rejected r);
        (notice chat_id r, Accepted);
        (completed chat_id message_id, Accepted) ]
| job_undelivered_edit_rejected file r r' :
    job_shape option chat_id message_id (Raise (TelegramAPIError r'))
      [ (delivery option chat_id file, Rejected r);
        (notice chat_id r, Accepted);
        (completed chat_id message_id, Rejected r') ]
| job_notice_rejected file r r' :
    job_shape option chat_id message_id (Raise (TelegramAPIError r'))
      [ (delivery option chat_id file, Rejected r);
        (notice chat_id r, Rejected r') ].



Definition is_delivery_call (c : SinkCall) : bool :=
  match c with
  | SendVideo _ _ | SendAudio _ _ => true
  | _ => false
  end.



Definition count (f : SinkCall * outcome -> bool)
    (tr : list (SinkCall * outcome)) : nat :=
  length (List.filter f tr).


Definition logged (l : level) (msg : string) (w : World) : World :=
  {| files := files w; calls := calls w; log := log w ++ [(l, msg)];
     tasks := tasks w |}.

(** The texts of [handle_url] and [send_welcome]. *)
Definition PROMPT : string := "Выберите формат загрузки:".
Definition WARNING : string :=
  "Внимание: FFmpeg не установлен. Опция 'Только аудио' недоступна.".
Definition GREETING : string :=
  "Отправьте мне ссылку на видео YouTube или TikTok, и я скачаю его для вас.".

(** ** Environments to run the program in *)

Module Run.

(** A chat that accepts every request except those [refuse] picks out,
    which it rejects with the reason given. *)
Definition chat (refuse : SinkCall -> option string)
    (_ : list (SinkCall * outcome)) (c : SinkCall) : outcome :=
  match refuse c with
  | Some r => Rejected r
  | None => Accepted
  end.

Definition refuse_nothing (_ : SinkCall) : option string := None.

Definition refuse_delivery (r : string) (c : SinkCall) : option string :=
  if is_delivery_call c then Some r else None.

(** Rejects the delivery and the notice about it, accepts the rest. *)
Definition refuse_delivery_and_notice (r : string) (c : SinkCall)
    : option string :=
  match c with
  | SendVideo _ _ | SendAudio _ _ => Some r
  | SendMessage _ body _ =>
      if String.prefix DELIVERY_ERROR body then Some r else None
  | _ => None
  end.

(** An engine that succeeds with [title] and leaves [name] with [size]
    bytes when [name] is given. *)
Definition engine (title : string) (out : option (string * N))
    (_ : string) (_ : YdlOpts) (fs : gmap string N)
    : result string * gmap string N * list sample :=
  (Ok title,
   match out with Some (name, size) => <[name := size]> fs | None => fs end,
   []).

(** Digits of a decimal numeral, most significant first. *)
Fixpoint digits (s : string) (acc : Z) : option Z :=
  match s with
  | EmptyString => Some acc
  | String c r =>
      let n := Z.of_nat (nat_of_ascii c) - 48 in
      if (0 <=? n) && (n <=? 9) then digits r (10 * acc + n) else None
  end.

(** [s.lstrip(' ')] *)
Fixpoint lstrip (s : string) : string :=
  match s with
  | String c r => if Ascii.eqb c " "%char then lstrip r else s
  | EmptyString => EmptyString
  end.

(** [float] on the numerals [d.d] with one fractional digit and blanks
    before them, which is how the engine prints percentages. *)
Definition float1 (s : string) : option Q :=
  match Py.split1 "."%char (lstrip s) with
  | [i; f] =>
      if (String.length f =? 1)%nat then
        match digits i 0, digits f 0 with
        | Some a, Some b =>
            if (0 <? String.length i)%nat
            then Some (Qmake (10 * a + b) 10) else None
        | _, _ => None
        end
      else None
  | _ => None
  end.

Definition env (ffmpeg : bool) (title : string) (out : option (string * N))
    (refuse : SinkCall -> option string) : Env :=
  {| FFMPEG_AVAILABLE := ffmpeg;
     float := float1;
     extract_info := engine title out;
     sink := chat refuse;
     new_message_id := fun h => Z.of_nat (length h) |}.

Definition start : World :=
  {| files := ∅; calls := []; log := []; tasks := [] |}.

End Run.

(** * Properties *)

(** ** Strings *)

Lemma str_mul_nat (s : string) (n : nat) :
  Py.str_mul s (Z.of_nat n) = Nat.iter n (String.append s) "".
Proof. unfold Py.str_mul. by rewrite Nat2Z.id. Qed.

Lemma cells_full (bar : string) :
  cells (FULL_BLOCK +:+ bar) = cons true <$> cells bar.
Proof. reflexivity. Qed.

Lemma cells_light (bar : string) :
  cells (LIGHT_SHADE +:+ bar) = cons false <$> cells bar.
Proof. reflexivity. Qed.

Lemma cells_blocks (a b : nat) :
  cells (Nat.iter a (String.append FULL_BLOCK) ""
           +:+ Nat.iter b (String.append LIGHT_SHADE) "")
  = Some (replicate a true ++ replicate b false).
Proof.
  induction a as [|a IHa].
  - change (cells (Nat.iter b (String.append LIGHT_SHADE) "")
            = Some (replicate b false)).
    induction b as [|b IHb]; [done|].
    rewrite Nat.iter_succ, cells_light, IHb. done.
  - rewrite Nat.iter_succ.
    change (cells (FULL_BLOCK +:+ (Nat.iter a (String.append FULL_BLOCK) ""
              +:+ Nat.iter b (String.append LIGHT_SHADE) ""))
            = Some (replicate (S a) true ++ replicate b false)).
    rewrite cells_full, IHa. done.
Qed.

Lemma split1_cut (pre post : string) (sep : Ascii.ascii) :
  contains sep pre = false →
  Py.split1 sep (pre +:+ String sep post) = [pre; post].
Proof.
  induction pre as [|c pre IH]; simpl.
  - by rewrite Ascii.eqb_refl.
  - intros [Hc Hpre]%orb_false_elim. rewrite Hc, IH by done. done.
Qed.

Lemma split1_whole (s : string) (sep : Ascii.ascii) :
  contains sep s = false → Py.split1 sep s = [s].
Proof.
  induction s as [|c s IH]; simpl; [done|].
  intros [Hc Hs]%orb_false_elim. by rewrite Hc, IH.
Qed.

(** ** Progress bar *)

Lemma filled_length_bounds (percent : Q) :
  (0 <= percent <= 100)%Q →
  0 ≤ filled_length percent default_width ≤ 20.
Proof.
  intros [Hlo Hhi]. unfold filled_length, default_width.
  assert (H0 : (inject_Z 0 <= inject_Z 20 * percent / 100)%Q).
  { change (inject_Z 0) with 0%Q. apply Qle_shift_div_l; [done|].
    rewrite Qmult_0_l. apply Qmult_le_0_compat; [done|exact Hlo]. }
  assert (H1 : (inject_Z 20 * percent / 100 <= inject_Z 20)%Q).
  { apply Qle_shift_div_r; [done|].
    change (inject_Z 20 * 100)%Q with (inject_Z 20 * (100 # 1))%Q.
    apply Qmult_le_l; [done|exact Hhi]. }
  apply Qfloor_resp_le in H0, H1. rewrite Qfloor_Z in H0, H1. lia.
Qed.

(** ** The count of filled cells in binary64 *)

Lemma digits2_pos_bounds (p : positive) :
  2 ^ (Z.pos (digits2_pos p) - 1) ≤ Z.pos p < 2 ^ Z.pos (digits2_pos p).
Proof.
  induction p as [p IH|p IH|]; simpl digits2_pos.
  - rewrite Pos2Z.inj_succ.
    replace (Z.succ (Z.pos (digits2_pos p)) - 1)
      with (Z.succ (Z.pos (digits2_pos p) - 1)) by lia.
    rewrite !Z.pow_succ_r by lia. lia.
  - rewrite Pos2Z.inj_succ.
    replace (Z.succ (Z.pos (digits2_pos p)) - 1)
      with (Z.succ (Z.pos (digits2_pos p) - 1)) by lia.
    rewrite !Z.pow_succ_r by lia. lia.
  - simpl. lia.
Qed.

Lemma iter_pos_nat {A} (f : A → A) (p : positive) (x : A) :
  SpecFloat.iter_pos f p x = Nat.iter (Pos.to_nat p) f x.
Proof.
  revert x. induction p as [p IH|p IH|]; intros x.
  - rewrite Pos2Nat.inj_xI. cbn [SpecFloat.iter_pos]. rewrite !IH.
    replace (S (2 * Pos.to_nat p))%nat
      with (Pos.to_nat p + (Pos.to_nat p + 1))%nat by lia.
    by rewrite !Nat.iter_add.
  - rewrite Pos2Nat.inj_xO. cbn [SpecFloat.iter_pos]. rewrite !IH.
    replace (2 * Pos.to_nat p)%nat
      with (Pos.to_nat p + Pos.to_nat p)%nat by lia.
    by rewrite Nat.iter_add.
  - reflexivity.
Qed.

(** One step of the shift: the last bit leaves the mantissa and becomes the
    round bit. *)
Lemma shr_1_step (mrs : shr_record) :
  0 ≤ shr_m mrs →
  0 ≤ shr_m (shr_1 mrs)
  ∧ shr_m mrs = 2 * shr_m (shr_1 mrs) + (if shr_r (shr_1 mrs) then 1 else 0).
Proof.
  destruct mrs as [m r s]. simpl. intros Hm.
  destruct m as [|[p|p|]|p]; simpl; lia.
Qed.

Lemma shr_iter (n : nat) (m : Z) :
  0 ≤ m →
  let mrs := Nat.iter n shr_1 {| shr_m := m; shr_r := false; shr_s := false |} in
  ∃ rem,
    0 ≤ shr_m mrs
    ∧ m = shr_m mrs * 2 ^ Z.of_nat n + rem
    ∧ 0 ≤ rem < 2 ^ Z.of_nat n
    ∧ (shr_r mrs = true → 2 ^ Z.of_nat n ≤ 2 * rem).
Proof.
  intros Hm. induction n as [|n IH]; simpl.
  - exists 0. simpl. split_and!; (lia || done).
  - destruct IH as (rem & H0 & Heq & Hrem & Hr).
    set (mrs := Nat.iter n shr_1 _) in *.
    destruct (shr_1_step mrs H0) as [H0' Hstep].
    rewrite Nat2Z.inj_succ, Z.pow_succ_r by lia.
    set (P := 2 ^ Z.of_nat n) in *.
    exists (rem + (if shr_r (shr_1 mrs) then P else 0)).
    split_and!; try done.
    + rewrite Heq at 1. rewrite Hstep at 1.
      destruct (shr_r (shr_1 mrs)); lia.
    + destruct (shr_r (shr_1 mrs)); lia.
    + destruct (shr_r (shr_1 mrs)); lia.
    + intros ->. lia.
Qed.

(** Rounding [20 * m / 2 ^ u] to the nearest integer does not move it
    across a multiple of [100 * D] when [2 ^ u] divides [D]: the two
    floors of the quotient by [100 * D] agree. *)
Lemma rounding_keeps_floor (n δ m m1 m2 A rem D3 : Z) :
  48 ≤ n ≤ 53 → 0 ≤ δ ≤ 1 →
  A * 2 ^ δ = m2 → 0 < D3 →
  5629499534213120 * m = m1 * 2 ^ n + rem →
  0 ≤ rem < 2 ^ n →
  m2 = m1 ∨ (m2 = m1 + 1 ∧ 2 ^ n ≤ 2 * rem) →
  A / (100 * D3) = (20 * m) / (100 * (2 ^ (n - 48 + δ) * D3)).
Proof.
  intros Hn Hδ HA HD HM Hrem Hm2.
  pose proof (Z.mul_div_le A (100 * D3)) as Hle.
  pose proof (Z.mul_succ_div_gt A (100 * D3)) as Hgt.
  set (K := A / (100 * D3)) in *.
  assert (Hcases : (n = 48 ∨ n = 49 ∨ n = 50 ∨ n = 51 ∨ n = 52 ∨ n = 53)
                   ∧ (δ = 0 ∨ δ = 1)) by lia.
  destruct Hcases as [Hn' Hδ'].
  apply (Z.div_unique _ _ K
           (20 * m - 100 * (2 ^ (n - 48 + δ) * D3) * K)); [left|ring].
  destruct Hn' as [-> | [-> | [-> | [-> | [-> | ->]]]]];
    destruct Hδ' as [-> | ->];
    simpl Z.sub in *; simpl Z.add in *; lia.
Qed.

Lemma canonical_mantissa_bounds (m : positive) (e : Z) :
  canonical_mantissa Binary64.prec Binary64.emax m e = true →
  Z.pos (digits2_pos m) ≤ 53 ∧ -1074 ≤ e
  ∧ (Z.pos (digits2_pos m) = 53 ∨ e = -1074).
Proof.
  unfold canonical_mantissa, fexp, emin, Binary64.prec, Binary64.emax.
  intros H%Z.eqb_eq. lia.
Qed.

Lemma round_nearest_even_cases (mrs : shr_record) :
  let m2 := round_nearest_even (shr_m mrs) (loc_of_shr_record mrs) in
  m2 = shr_m mrs ∨ (m2 = shr_m mrs + 1 ∧ shr_r mrs = true).
Proof.
  destruct mrs as [m [] []]; simpl; try (by left); try (by right).
  destruct (Z.even m); [by left|by right].
Qed.

Lemma round_mul20 (m : positive) (e : Z) :
  Z.pos m < 2 ^ 53 →
  2 ^ 52 ≤ Z.pos m ∨ e = -1074 →
  -1074 ≤ e ≤ -46 →
  ∃ m3 e3,
    binary_round_aux 53 1024 false (Z.pos (5629499534213120 * m)) (-48 + e)
      loc_Exact = S754_finite false m3 e3
    ∧ e3 < 0
    ∧ Z.pos m3 / (100 * 2 ^ (- e3)) = (20 * Z.pos m) / (100 * 2 ^ (- e)).
Proof.
  intros Hm Hnorm He.
  pose proof (digits2_pos_bounds (5629499534213120 * m)) as HdM.
  set (dM := Z.pos (digits2_pos (5629499534213120 * m))) in *.
  assert (HdM106 : dM ≤ 106).
  { destruct (Z_le_gt_dec dM 106) as [|Hgt]; [done|exfalso].
    assert (2 ^ 106 ≤ 2 ^ (dM - 1)) by (apply Z.pow_le_mono_r; lia).
    rewrite Pos2Z.inj_mul in HdM. lia. }
  assert (HdMlo : 53 ≤ dM ∧ (2 ^ 52 ≤ Z.pos m → 105 ≤ dM)).
  { split.
    - destruct (Z_le_gt_dec 53 dM) as [|Hgt]; [done|exfalso].
      assert (2 ^ dM ≤ 2 ^ 52) by (apply Z.pow_le_mono_r; lia).
      rewrite Pos2Z.inj_mul in HdM. lia.
    - intros Hn. destruct (Z_le_gt_dec 105 dM) as [|Hgt]; [done|exfalso].
      assert (2 ^ dM ≤ 2 ^ 104) by (apply Z.pow_le_mono_r; lia).
      rewrite Pos2Z.inj_mul in HdM. lia. }
  unfold binary_round_aux, shr_fexp, shr_record_of_loc.
  cbn [Zdigits2]. fold dM.
  set (n1 := fexp 53 1024 (dM + (-48 + e)) - (-48 + e)).
  assert (Hn1 : 48 ≤ n1 ≤ 53 ∧ dM - 53 ≤ n1 ∧ -1074 ≤ -48 + e + n1
                ∧ (n1 = dM - 53 ∨ n1 = 48)).
  { subst n1. unfold fexp, emin. lia. }
  clearbody n1.
  destruct n1 as [|pn|pn] eqn:Hpn; [lia| |lia].
  cbn [shr]. rewrite iter_pos_nat.
  destruct (shr_iter (Pos.to_nat pn) (Z.pos (5629499534213120 * m)))
    as (rem & Hm1 & HM & Hrem & Hr); [lia|].
  rewrite positive_nat_Z in HM, Hrem, Hr.
  set (mrs1 := Nat.iter (Pos.to_nat pn) shr_1 _) in *.
  assert (Hm2 : let m2 := round_nearest_even (shr_m mrs1)
                            (loc_of_shr_record mrs1) in
                m2 = shr_m mrs1
                ∨ (m2 = shr_m mrs1 + 1 ∧ 2 ^ Z.pos pn ≤ 2 * rem)).
  { destruct (round_nearest_even_cases mrs1) as [?|[? ?]]; [by left|right].
    split; [done|by apply Hr]. }
  set (m2 := round_nearest_even (shr_m mrs1) (loc_of_shr_record mrs1)) in *.
  set (m1 := shr_m mrs1) in *. cbv zeta in Hm2.
  clearbody m2 m1. clear Hr mrs1.
  rewrite Pos2Z.inj_mul in HM, HdM.
  destruct Hn1 as (Hrange & Hge & Hmin & Hn1).
  assert (HdMup : 2 ^ dM ≤ 2 ^ (Z.pos pn + 53))
    by (apply Z.pow_le_mono_r; lia).
  assert (Hlow : 2 ^ (Z.pos pn + 52) ≤ 5629499534213120 * Z.pos m
                 ∨ Z.pos pn = 48).
  { destruct Hn1 as [Heq|?]; [left|by right].
    replace (Z.pos pn + 52) with (dM - 1) by lia. lia. }
  clear HdM106 HdMlo Hge Hn1 Hnorm.
  assert (Hpn' : Z.pos pn = 48 ∨ Z.pos pn = 49 ∨ Z.pos pn = 50
                 ∨ Z.pos pn = 51 ∨ Z.pos pn = 52 ∨ Z.pos pn = 53) by lia.
  assert (Hm1b : 1 ≤ m1 < 2 ^ 53).
  { destruct Hpn' as [H|[H|[H|[H|[H|H]]]]]; rewrite H in *;
      simpl Z.add in *; lia. }
  assert (Hm2b : 1 ≤ m2 ≤ 2 ^ 53) by lia.
  set (e1 := -48 + e + Z.pos pn) in *.
  destruct m2 as [|pm2|pm2]; [lia| |lia].
  cbn [Zdigits2].
  pose proof (digits2_pos_bounds pm2) as Hd2.
  set (d2 := Z.pos (digits2_pos pm2)) in *.
  set (n2 := fexp 53 1024 (d2 + e1) - e1).
  destruct (Z_lt_le_dec (Z.pos pm2) (2 ^ 53)) as [Hlt|Hge].
  - assert (Hn2 : n2 ≤ 0).
    { assert (d2 ≤ 53).
      { destruct (Z_le_gt_dec d2 53) as [|Hgt]; [done|exfalso].
        assert (2 ^ 53 ≤ 2 ^ (d2 - 1)) by (apply Z.pow_le_mono_r; lia).
        lia. }
      subst n2. unfold fexp, emin. lia. }
    clearbody n2.
    exists pm2, e1.
    assert (Hshr : shr {| shr_m := Z.pos pm2; shr_r := false; shr_s := false |}
                     e1 n2
                   = ({| shr_m := Z.pos pm2; shr_r := false; shr_s := false |},
                      e1)) by (destruct n2; [done|lia|done]).
    rewrite Hshr. cbn [shr_m].
    assert (He1 : (e1 <=? 1024 - 53) = true) by (apply Z.leb_le; lia).
    rewrite He1. split; [done|]. split; [lia|].
    replace (- e) with (Z.pos pn - 48 + 0 + - e1) by lia.
    rewrite (Z.pow_add_r 2 (Z.pos pn - 48 + 0)) by lia.
    apply (rounding_keeps_floor _ 0 _ m1 (Z.pos pm2) _ rem);
      try done; try lia; apply Z.pow_pos_nonneg; lia.
  - assert (Hpm2 : pm2 = 9007199254740992%positive) by lia.
    subst pm2.
    assert (Hn2 : n2 = 1) by (subst n2 d2; unfold fexp, emin; simpl; lia).
    clearbody n2. subst n2.
    exists 4503599627370496%positive, (e1 + 1).
    cbn [shr SpecFloat.iter_pos shr_1 shr_m].
    assert (He1 : (e1 + 1 <=? 1024 - 53) = true) by (apply Z.leb_le; lia).
    rewrite He1. split; [done|]. split; [lia|].
    replace (- e) with (Z.pos pn - 48 + 1 + - (e1 + 1)) by lia.
    rewrite (Z.pow_add_r 2 (Z.pos pn - 48 + 1)) by lia.
    apply (rounding_keeps_floor _ 1 _ m1 9007199254740992 _ rem);
      try done; try lia; apply Z.pow_pos_nonneg; lia.
Qed.

Lemma of_int_20 :
  Binary64.of_int 20 = S754_finite false 5629499534213120 (-48).
Proof. reflexivity. Qed.

Lemma valid_binary_bounds (m : positive) (e : Z) :
  valid_binary Binary64.prec Binary64.emax (S754_finite false m e) = true →
  Z.pos m < 2 ^ 53 ∧ (2 ^ 52 ≤ Z.pos m ∨ e = -1074) ∧ -1074 ≤ e.
Proof.
  simpl. unfold bounded. intros [Hc _]%andb_prop.
  apply canonical_mantissa_bounds in Hc as (Hd & He & Hn).
  pose proof (digits2_pos_bounds m) as Hm.
  assert (2 ^ Z.pos (digits2_pos m) ≤ 2 ^ 53)
    by (apply Z.pow_le_mono_r; lia).
  split; [lia|]. split; [|done].
  destruct Hn as [Hn|?]; [left|by right].
  rewrite Hn in Hm. simpl Z.sub in Hm. lia.
Qed.

Lemma binary64_filled_length (p : spec_float) (q : Q) :
  valid_binary Binary64.prec Binary64.emax p = true →
  Binary64.value p = Some q →
  (0 <= q <= 100)%Q →
  Binary64.filled_length p default_width
  = Some (filled_length q default_width).
Proof.
  intros Hvalid Hq [Hq0 Hq100].
  unfold Binary64.filled_length, default_width. rewrite of_int_20.
  destruct p as [s|s| |s m e]; simpl in Hq; try discriminate Hq.
  - injection Hq as <-. reflexivity.
  - injection Hq as <-.
    destruct s.
    { exfalso. destruct (0 <=? e) eqn:He.
      - apply Z.leb_le in He.
        assert (0 < 2 ^ e) by (apply Z.pow_pos_nonneg; lia).
        unfold Qle in Hq0. simpl in Hq0. nia.
      - unfold Qle in Hq0. simpl in Hq0. lia. }
    destruct (valid_binary_bounds m e Hvalid) as (Hm & Hnorm & Hemin).
    assert (He : e ≤ -46).
    { destruct Hnorm as [Hn|?]; [|lia].
      destruct (Z_le_gt_dec e (-46)) as [|Hgt]; [done|exfalso].
      destruct (0 <=? e) eqn:He0.
      - apply Z.leb_le in He0.
        assert (0 < 2 ^ e) by (apply Z.pow_pos_nonneg; lia).
        unfold Qle in Hq100. simpl in Hq100. nia.
      - apply Z.leb_gt in He0.
        assert (2 ^ (- e) ≤ 2 ^ 45) by (apply Z.pow_le_mono_r; lia).
        assert (0 < 2 ^ (- e)) by (apply Z.pow_pos_nonneg; lia).
        unfold Qle in Hq100. simpl in Hq100.
        rewrite Z2Pos.id in Hq100 by done. lia. }
    destruct (round_mul20 m e Hm Hnorm) as (m3 & e3 & Hround & He3 & Hdiv);
      [lia|].
    cbn [SFmul xorb]. unfold Binary64.prec, Binary64.emax.
    change (-48 + e) with (-48 + e) in Hround. rewrite Hround.
    cbn [Binary64.floordiv].
    assert (He3' : (0 <=? e3) = false) by (apply Z.leb_gt; lia).
    assert (He' : (0 <=? e) = false) by (apply Z.leb_gt; lia).
    rewrite He3', He', Hdiv. f_equal.
    unfold filled_length, Qfloor. simpl.
    rewrite !Pos2Z.inj_mul, Z2Pos.id by (apply Z.pow_pos_nonneg; lia).
    f_equal; lia.
Qed.

(** Reading a percentage with one fractional digit as a double and as
    the decimal it spells gives the same count of filled cells, from 0.0
    to 100.0. *)
Lemma binary64_tenths (k : Z) :
  0 ≤ k ≤ 1000 →
  Binary64.filled_length (Binary64.of_tenths k) default_width
  = Some (filled_length (k # 10) default_width).
Proof.
  intros Hk.
  assert (Hall : forallb
            (λ k, bool_decide
                    (Binary64.filled_length (Binary64.of_tenths k) default_width
                     = Some (filled_length (k # 10) default_width)))
            (seqZ 0 1001) = true) by (vm_compute; reflexivity).
  rewrite forallb_forall in Hall.
  specialize (Hall k). rewrite bool_decide_eq_true in Hall.
  apply Hall, list_elem_of_In, elem_of_seqZ. lia.
Qed.

(** C4. For every percent from 0 to 100, [create_progress_bar] at the
    default width prints, between the brackets, 20 cells of which the first
    [k] are filled and the others unfilled, where [k] is the floor of
    [20 * percent / 100]; no cell is filled at 0 and all are at 100.  The
    count is the same when it is computed in binary64 from a double whose
    value is that percent. *)
Theorem create_progress_bar_cells (percent : Q) :
  (0 <= percent <= 100)%Q →
  ∃ (bar : string) (k : Z) (cs : list bool),
    create_progress_bar percent default_width
      = "[" +:+ bar +:+ "] " +:+ Py.format_1f percent +:+ "%"
    ∧ cells bar = Some cs
    ∧ length cs = 20%nat
    ∧ cs = replicate (Z.to_nat k) true ++ replicate (20 - Z.to_nat k) false
    ∧ k = Qfloor (20 * percent / 100)
    ∧ (inject_Z k * 100 <= 20 * percent)%Q
    ∧ (20 * percent < (inject_Z k + 1) * 100)%Q
    ∧ ((percent == 0)%Q → k = 0)
    ∧ ((percent == 100)%Q → k = 20)
    ∧ (∀ p, valid_binary Binary64.prec Binary64.emax p = true →
            Binary64.value p = Some percent →
            Binary64.filled_length p default_width = Some k).
Proof.
  intros Hrange.
  pose proof (filled_length_bounds percent Hrange) as Hk.
  set (k := filled_length percent default_width) in *.
  exists (progress_cells percent default_width), k,
    (replicate (Z.to_nat k) true ++ replicate (20 - Z.to_nat k) false).
  split_and!.
  - reflexivity.
  - unfold progress_cells. fold k.
    rewrite <- (Z2Nat.id k) at 1 2 by lia.
    replace (default_width - Z.of_nat (Z.to_nat k))
      with (Z.of_nat (20 - Z.to_nat k)) by (unfold default_width; lia).
    rewrite !str_mul_nat. apply cells_blocks.
  - rewrite length_app, !length_replicate. lia.
  - reflexivity.
  - reflexivity.
  - pose proof (Qfloor_le (20 * percent / 100)) as H.
    change (Qfloor (20 * percent / 100)) with k in H.
    apply (Qmult_le_r _ _ 100) in H; [|done].
    eapply Qle_trans; [exact H|]. apply Qle_lteq. right. field.
  - pose proof (Qlt_floor (20 * percent / 100)) as H.
    change (Qfloor (20 * percent / 100)) with k in H.
    apply (Qmult_lt_r _ _ 100) in H; [|done].
    rewrite inject_Z_plus in H. change (inject_Z 1) with 1%Q in H.
    eapply Qle_lt_trans; [|exact H]. apply Qle_lteq. right. field.
  - intros H0. subst k. unfold filled_length. by rewrite H0.
  - intros H100. subst k. unfold filled_length. by rewrite H100.
  - intros p Hvalid Hp. by apply binary64_filled_length.
Qed.

(** The witness is taken at the double nearest to 45.3. *)
Lemma create_progress_bar_cells_witness :
  let percent := (6375408222496358 # 140737488355328)%Q in
  Binary64.value (Binary64.of_tenths 453) = Some percent
  ∧ ∃ (bar : string) (k : Z) (cs : list bool),
    create_progress_bar percent default_width
      = "[" +:+ bar +:+ "] " +:+ Py.format_1f percent +:+ "%"
    ∧ cells bar = Some cs
    ∧ length cs = 20%nat
    ∧ cs = replicate (Z.to_nat k) true ++ replicate (20 - Z.to_nat k) false
    ∧ k = Qfloor (20 * percent / 100)
    ∧ (inject_Z k * 100 <= 20 * percent)%Q
    ∧ (20 * percent < (inject_Z k + 1) * 100)%Q
    ∧ ((percent == 0)%Q → k = 0)
    ∧ ((percent == 100)%Q → k = 20)
    ∧ (∀ p, valid_binary Binary64.prec Binary64.emax p = true →
            Binary64.value p = Some percent →
            Binary64.filled_length p default_width = Some k).
Proof.
  split; [reflexivity|].
  apply (create_progress_bar_cells (6375408222496358 # 140737488355328)).
  split; done.
Defined.

(** ** Selection payload *)

Lemma tag_no_colon (p : DownloadProfile) : contains ":"%char (tag p) = false.
Proof. by destruct p. Qed.

(** C5. For each of the three option tags and every URL, colons in it or
    not, the payload [handle_url] puts on the button, cut at its first
    colon as [callback_query_handler] does, gives back the tag and the
    URL. *)
Theorem payload_roundtrip (p : DownloadProfile) (url : string) :
  unpack2 (Py.split1 ":"%char (payload (tag p) url)) = Ok (tag p, url).
Proof.
  unfold payload.
  change (":" +:+ url) with (String ":"%char url).
  by rewrite split1_cut by apply tag_no_colon.
Qed.

(** Every button of the keyboard carries such a payload, and the audio
    button is there only with the transcoder. *)
Lemma keyboard_payloads (E : Env) (url : string) (b : InlineKeyboardButton) :
  b ∈ concat (keyboard E url) →
  ∃ p, callback_data b = payload (tag p) url
       ∧ (p = AudioOnly → FFMPEG_AVAILABLE E = true).
Proof.
  unfold keyboard. destruct (FFMPEG_AVAILABLE E); simpl.
  - rewrite !elem_of_cons, elem_of_nil.
    intros [->|[->|[->|[]]]];
      [by exists VideoHigh|by exists VideoLow|by exists AudioOnly].
  - rewrite !elem_of_cons, elem_of_nil.
    intros [->|[->|[]]]; [by exists VideoHigh|by exists VideoLow].
Qed.

(** ** Option resolver *)

(** C3. For each of the three options and either availability,
    [get_ydl_opts] returns the configuration of that option: the best
    video+audio selector with the MP4 conversion for [video_high], the
    worst video+audio selector with the MP4 conversion for [video_low], the
    best-audio selector with the audio extraction for [audio], with the
    hook bound to the status message and the artifact extension that goes
    with it; except [audio] without the transcoder, which raises and
    returns no configuration. *)
Theorem get_ydl_opts_profile (E : Env) (p : DownloadProfile)
    (chat_id message_id : Z) :
  match p, FFMPEG_AVAILABLE E with
  | AudioOnly, false =>
      get_ydl_opts E (tag p) chat_id message_id = Raise (Exception UNAVAILABLE)
  | _, _ =>
      ∃ opts,
        get_ydl_opts E (tag p) chat_id message_id = Ok opts
        ∧ format opts = Some (selector p)
        ∧ postprocessors opts = Some (steps p)
        ∧ progress_hooks opts
          = [ {| hook_chat_id := chat_id; hook_message_id := message_id |} ]
        ∧ ∀ title, derived_name title opts = Ok (title +:+ extension p)
  end.
Proof.
  destruct p; simpl.
  - destruct (FFMPEG_AVAILABLE E); eexists; split_and!; reflexivity.
  - destruct (FFMPEG_AVAILABLE E); eexists; split_and!; reflexivity.
  - unfold get_ydl_opts. simpl. destruct (FFMPEG_AVAILABLE E).
    + eexists. split_and!; reflexivity.
    + reflexivity.
Qed.

(** C10. An option that neither starts with [video] nor equals [audio] is
    not rejected: [get_ydl_opts] returns a configuration with no format
    selector and no post-processing steps. *)
Theorem get_ydl_opts_unknown (E : Env) (option : string)
    (chat_id message_id : Z) :
  Py.startswith option "video" = false →
  option ≠ DownloadOption.AUDIO →
  ∃ opts,
    get_ydl_opts E option chat_id message_id = Ok opts
    ∧ format opts = None
    ∧ postprocessors opts = None.
Proof.
  intros Hv Ha. unfold get_ydl_opts. rewrite Hv.
  apply String.eqb_neq in Ha. rewrite Ha. by eexists.
Qed.

Lemma get_ydl_opts_unknown_witness :
  ∃ opts,
    get_ydl_opts (Run.env false "t" None Run.refuse_nothing) "gif" 7 3 = Ok opts
    ∧ format opts = None
    ∧ postprocessors opts = None.
Proof.
  apply (get_ydl_opts_unknown _ "gif" 7 3); [reflexivity|discriminate].
Defined.

(** ** Decoding the selection *)

(** C9. On a payload without a colon the unpacking of the split raises,
    and so does the handler, in the world it started in: no starting
    message, no job, no error message to the user. *)
Theorem callback_without_colon (E : Env) (data : string) (chat_id : Z)
    (w : World) :
  contains ":"%char data = false →
  unpack2 (Py.split1 ":"%char data)
    = Raise (ValueError "not enough values to unpack (expected 2, got 1)")
  ∧ callback_query_handler E data chat_id w
    = (Raise (ValueError "not enough values to unpack (expected 2, got 1)"), w).
Proof.
  intros H. unfold callback_query_handler. rewrite (split1_whole _ _ H).
  done.
Qed.

Lemma callback_without_colon_witness :
  unpack2 (Py.split1 ":"%char "video_high")
    = Raise (ValueError "not enough values to unpack (expected 2, got 1)")
  ∧ callback_query_handler (Run.env true "t" None Run.refuse_nothing)
      "video_high" 7 Run.start
    = (Raise (ValueError "not enough values to unpack (expected 2, got 1)"),
       Run.start).
Proof.
  apply (callback_without_colon _ "video_high" 7 Run.start). reflexivity.
Defined.

(** ** Progress hook *)

(** C7. On a sample whose status is not [downloading] the hook returns and
    changes nothing.  On a [downloading] sample with its fields it makes one
    request, the edit of the status message, and returns normally whatever
    the chat answers: a rejection is logged and goes no further. *)
Theorem progress_hook_policy (E : Env) (d : sample) (chat_id message_id : Z)
    (w : World) (status : string) :
  d !! "status" = Some status →
  if String.eqb status "downloading" then
    ∀ pct speed eta q,
      d !! "_percent_str" = Some pct →
      float E (Py.replace "%"%char "" pct) = Some q →
      d !! "_speed_str" = Some speed →
      d !! "_eta_str" = Some eta →
      let c := EditMessageText chat_id message_id
                 (progress_message q speed eta) in
      progress_hook E d chat_id message_id w
      = (Ok tt,
         match sink E (calls w) c with
         | Accepted => record_call c Accepted w
         | Rejected r =>
             logged ERROR ("Error updating progress: " +:+ r)
               (record_call c (Rejected r) w)
         end)
  else progress_hook E d chat_id message_id w = (Ok tt, w).
Proof.
  intros Hs. unfold progress_hook, getitem. 
  unfold mbind, M_bind, bind, lift. rewrite Hs.
  destruct (String.eqb status "downloading"); [|done].
  intros pct speed eta q Hp Hq Hsp He.
  unfold to_float. rewrite Hp, Hq, Hsp, He.
  unfold try_except, edit_message_text, request.
  destruct (sink E (calls w) _); reflexivity.
Qed.

Lemma progress_hook_policy_witness :
  progress_hook (Run.env true "t" None (fun _ => Some "Flood control"%string))
    {[ "status" := "downloading"; "_percent_str" := " 45.3%";
       "_speed_str" := "1.2MiB/s"; "_eta_str" := "00:10" ]} 7 3 Run.start
  = (Ok tt,
     {| files := ∅;
        calls := [(EditMessageText 7 3
                     (progress_message (453 # 10) "1.2MiB/s" "00:10"),
                   Rejected "Flood control")];
        log := [(ERROR, "Error updating progress: Flood control")];
        tasks := [] |}).
Proof.
  exact (progress_hook_policy
           (Run.env true "t" None (fun _ => Some "Flood control"%string))
           {[ "status" := "downloading"; "_percent_str" := " 45.3%";
              "_speed_str" := "1.2MiB/s"; "_eta_str" := "00:10" ]}
           7 3 Run.start "downloading" eq_refl
           " 45.3%" "1.2MiB/s" "00:10" (453 # 10)
           eq_refl eq_refl eq_refl eq_refl).
Defined.

(** ** Job runner *)

Ltac run :=
  repeat progress
    (unfold mbind, M_bind, bind, try_except, lift, raise, ret, logger,
       path_exists, getsize, remove, send_message, edit_message_text,
       send_video, send_audio, request in *; simpl in * ).

Lemma download_file_calls (E : Env) (url : string) (opts : YdlOpts) (w : World) :
  calls (download_file E url opts w).2 = calls w.
Proof.
  unfold download_file, run_engine. run.
  destruct (extract_info E url opts (files w)) as [[[title|e] fs] ss]; simpl;
    [|done].
  destruct (derived_name title opts) as [name|e]; simpl; [|done].
  destruct (fs !! name) as [n|] eqn:Hn; simpl; rewrite ?Hn; simpl; [|done].
  by destruct (n =? 0)%N.
Qed.

Lemma download_file_ok (E : Env) (url : string) (opts : YdlOpts)
    (w w' : World) (f : string) :
  download_file E url opts w = (Ok f, w') →
  ∃ n, files w' !! f = Some n ∧ n ≠ 0%N.
Proof.
  unfold download_file, run_engine. run.
  destruct (extract_info E url opts (files w)) as [[[title|e] fs] ss]; simpl;
    [|done].
  destruct (derived_name title opts) as [name|e]; simpl; [|done].
  destruct (fs !! name) as [n|] eqn:Hn; simpl; rewrite ?Hn; simpl; [|done].
  destruct (n =? 0)%N eqn:Hz; [done|].
  intros [= <- <-]. simpl. exists n. split; [done|]. by apply N.eqb_neq.
Qed.

Lemma download_file_missing (E : Env) (url : string) (opts : YdlOpts)
    (w : World) (title name : string) (fs : gmap string N) (ss : list sample) :
  extract_info E url opts (files w) = (Ok title, fs, ss) →
  derived_name title opts = Ok name →
  fs !! name = None →
  ∃ w', download_file E url opts w
        = (Raise (Exception (MISSING +:+ name)), w')
        ∧ files w' = fs ∧ calls w' = calls w.
Proof.
  intros He Hd Hn. unfold download_file, run_engine. run.
  rewrite He. simpl. rewrite Hd. simpl. rewrite Hn. simpl.
  by eexists.
Qed.

Lemma download_file_empty (E : Env) (url : string) (opts : YdlOpts)
    (w : World) (title name : string) (fs : gmap string N) (ss : list sample) :
  extract_info E url opts (files w) = (Ok title, fs, ss) →
  derived_name title opts = Ok name →
  fs !! name = Some 0%N →
  ∃ w', download_file E url opts w = (Raise (Exception EMPTY), w')
        ∧ files w' = fs ∧ calls w' = calls w.
Proof.
  intros He Hd Hn. unfold download_file, run_engine. run.
  rewrite He. simpl. rewrite Hd. simpl. rewrite Hn. simpl. rewrite Hn. simpl.
  by eexists.
Qed.

(** ** Request coordinator *)

Lemma send_file_run (E : Env) (chat_id : Z) (file option : string) (w : World) :
  let D := delivery option chat_id file in
  ∃ w', files w' = files w ∧
    match sink E (calls w) D with
    | Accepted =>
        send_file E chat_id file option w = (Ok tt, w')
        ∧ calls w' = calls w ++ [(D, Accepted)]
    | Rejected r =>
        match sink E (calls w ++ [(D, Rejected r)]) (notice chat_id r) with
        | Accepted =>
            send_file E chat_id file option w = (Ok tt, w')
            ∧ calls w' = calls w ++ [(D, Rejected r); (notice chat_id r, Accepted)]
        | Rejected r' =>
            send_file E chat_id file option w = (Raise (TelegramAPIError r'), w')
            ∧ calls w' = calls w
                ++ [(D, Rejected r); (notice chat_id r, Rejected r')]
        end
    end.
Proof.
  unfold send_file, delivery, notice. run.
  destruct (Py.startswith option "video"); simpl.
  - destruct (sink E (calls w) (SendVideo chat_id file)) as [|r]; simpl.
    + eexists. split_and!; [|reflexivity|]; done.
    + destruct (sink E _ _) as [|r']; simpl;
        (eexists; split_and!; [|reflexivity|]; simpl; [done|]);
        by rewrite <- app_assoc.
  - destruct (sink E (calls w) (SendAudio chat_id file)) as [|r]; simpl.
    + eexists. split_and!; [|reflexivity|]; done.
    + destruct (sink E _ _) as [|r']; simpl;
        (eexists; split_and!; [|reflexivity|]; simpl; [done|]);
        by rewrite <- app_assoc.
Qed.

Lemma job_trace (E : Env) (option url : string) (chat_id message_id : Z)
    (w w' : World) (r : result unit) :
  job E option url chat_id message_id w = (r, w') →
  ∃ tr, calls w' = calls w ++ tr
        ∧ job_shape option chat_id message_id r tr.
Proof.
  unfold job.
  unfold mbind at 1; unfold M_bind, bind, lift.
  destruct (get_ydl_opts E option chat_id message_id) as [opts|e].
  2:{ intros [= <- <-]. exists []. rewrite app_nil_r. split; [done|constructor]. }
  unfold mbind at 1.
  pose proof (download_file_calls E url opts w) as Hc.
  destruct (download_file E url opts w) as [[f|e] w1] eqn:Hdl; simpl in Hc.
  2:{ intros [= <- <-]. exists []. rewrite app_nil_r. split; [done|constructor]. }
  apply download_file_ok in Hdl as (n & Hf & _).
  unfold mbind at 1.
  destruct (send_file_run E chat_id f option w1) as (w2 & Hfs & Hsend).
  rewrite Hc in Hsend.
  destruct (sink E (calls w) (delivery option chat_id f)) as [|r1].
  - destruct Hsend as [-> Hc2].
    unfold mbind at 1. unfold remove at 1. rewrite Hfs, Hf.
    unfold edit_message_text, request. simpl. rewrite Hc2.
    fold (completed chat_id message_id).
    destruct (sink E _ (completed chat_id message_id)) as [|r2];
      intros [= <- <-]; simpl; eexists;
      (split; [by rewrite <- app_assoc|]); constructor.
  - destruct (sink E _ (notice chat_id r1)) as [|r2];
      destruct Hsend as [-> Hc2].
    + unfold mbind at 1. unfold remove at 1. rewrite Hfs, Hf.
      unfold edit_message_text, request. simpl. rewrite Hc2.
      fold (completed chat_id message_id).
      destruct (sink E _ (completed chat_id message_id)) as [|r3];
        intros [= <- <-]; simpl; eexists;
        (split; [by rewrite <- app_assoc|]); constructor.
    + intros [= <- <-]. eexists. split; [done|]. constructor.
Qed.

Lemma derived_name_resolved (E : Env) (option title : string)
    (chat_id message_id : Z) (opts : YdlOpts) :
  get_ydl_opts E option chat_id message_id = Ok opts →
  derived_name title opts = Ok (artifact_name option title).
Proof.
  unfold get_ydl_opts, artifact_name.
  destruct (Py.startswith option "video") eqn:Hv.
  - intros [= <-].
    destruct (String.eqb option DownloadOption.AUDIO) eqn:Ha; [|done].
    apply String.eqb_eq in Ha. by rewrite Ha in Hv.
  - destruct (String.eqb option DownloadOption.AUDIO); [|by intros [= <-]].
    destruct (FFMPEG_AVAILABLE E); [by intros [= <-]|done].
Qed.

(** The handler past its first two lines: the job, and on its failure the
    message about it. *)
Lemma handler_run (E : Env) (data option url : string) (chat_id : Z)
    (w : World) :
  unpack2 (Py.split1 ":"%char data) = Ok (option, url) →
  sink E (calls w) (starting chat_id) = Accepted →
  callback_query_handler E data chat_id w
  = match job E option url chat_id (new_message_id E (calls w))
            (record_call (starting chat_id) Accepted w) with
    | (Ok _, w') => (Ok tt, w')
    | (Raise e, w') =>
        match sink E (calls w') (failure chat_id (str e)) with
        | Accepted =>
            (Ok tt,
             logged ERROR
               ("Error for user " +:+ pretty chat_id +:+ ": " +:+ str e)
               (record_call (failure chat_id (str e)) Accepted w'))
        | Rejected r =>
            (Raise (TelegramAPIError r),
             record_call (failure chat_id (str e)) (Rejected r) w')
        end
    end.
Proof.
  intros Hd Hs. unfold callback_query_handler.
  unfold mbind at 1; unfold M_bind, bind, lift. rewrite Hd.
  unfold mbind at 1. unfold send_message, request.
  unfold mbind at 1; unfold M_bind, bind.
  fold (starting chat_id). rewrite Hs. unfold ret at 1.
  unfold try_except.
  destruct (job E option url chat_id _ _) as [[[]|e] w']; [done|].
  unfold mbind, M_bind, bind, ret, logger.
  fold (failure chat_id (str e)).
  by destruct (sink E (calls w') (failure chat_id (str e))).
Qed.

Lemma job_download_failed (E : Env) (option url : string)
    (chat_id message_id : Z) (w w1 : World) (opts : YdlOpts) (e : exn) :
  get_ydl_opts E option chat_id message_id = Ok opts →
  download_file E url opts w = (Raise e, w1) →
  job E option url chat_id message_id w = (Raise e, w1).
Proof.
  intros Ho Hdl. unfold job.
  unfold mbind at 1; unfold M_bind, bind, lift. rewrite Ho.
  unfold mbind at 1. by rewrite Hdl.
Qed.

(** What the handler does when the job runner raises: one message with the
    reason, whatever the chat answers to it, and the files as the job
    runner left them. *)
Lemma handler_download_failed (E : Env) (data option url : string)
    (chat_id : Z) (w w1 : World) (opts : YdlOpts) (e : exn) :
  unpack2 (Py.split1 ":"%char data) = Ok (option, url) →
  sink E (calls w) (starting chat_id) = Accepted →
  get_ydl_opts E option chat_id (new_message_id E (calls w)) = Ok opts →
  download_file E url opts (record_call (starting chat_id) Accepted w)
    = (Raise e, w1) →
  ∃ o, calls (callback_query_handler E data chat_id w).2
       = calls w ++ [(starting chat_id, Accepted);
                     (failure chat_id (str e), o)]
       ∧ files (callback_query_handler E data chat_id w).2 = files w1.
Proof.
  intros Hd Hs Ho Hdl. rewrite (handler_run E data option url) by done.
  pose proof (download_file_calls E url opts
                (record_call (starting chat_id) Accepted w)) as Hc.
  rewrite Hdl in Hc. simpl in Hc.
  rewrite (job_download_failed E option url chat_id _ _ w1 opts e) by done.
  exists (sink E (calls w1) (failure chat_id (str e))).
  destruct (sink E (calls w1) (failure chat_id (str e))); simpl;
    by rewrite Hc, <- app_assoc.
Qed.

(** C6. When the engine reports success and leaves no file under the
    derived name (the title with [.mp3] for the audio option, with [.mp4]
    otherwise), [download_file] raises with the reason that names the
    missing file, and the handler makes two requests only, the starting
    message and the error message: no delivery call. *)
Theorem artifact_missing (E : Env) (data option url : string) (chat_id : Z)
    (w : World) (opts : YdlOpts) (title : string) (fs : gmap string N)
    (ss : list sample) :
  unpack2 (Py.split1 ":"%char data) = Ok (option, url) →
  sink E (calls w) (starting chat_id) = Accepted →
  get_ydl_opts E option chat_id (new_message_id E (calls w)) = Ok opts →
  extract_info E url opts (files w) = (Ok title, fs, ss) →
  fs !! artifact_name option title = None →
  (∃ w1, download_file E url opts (record_call (starting chat_id) Accepted w)
         = (Raise (Exception (MISSING +:+ artifact_name option title)), w1))
  ∧ ∃ tr o,
      calls (callback_query_handler E data chat_id w).2 = calls w ++ tr
      ∧ tr = [(starting chat_id, Accepted);
              (failure chat_id (MISSING +:+ artifact_name option title), o)]
      ∧ Forall (λ c, is_delivery_call c.1 = false) tr.
Proof.
  intros Hd Hs Ho He Hn.
  destruct (download_file_missing E url opts
              (record_call (starting chat_id) Accepted w)
              title (artifact_name option title) fs ss)
    as (w1 & Hdl & _ & _); [done|by eapply derived_name_resolved|done|].
  split; [by exists w1|].
  destruct (handler_download_failed E data option url chat_id w w1 opts _
              Hd Hs Ho Hdl) as (o & Hc & _).
  eexists _, o. split; [exact Hc|]. split; [done|].
  repeat constructor.
Qed.

Lemma artifact_missing_witness :
  (∃ w1, download_file (Run.env true "clip" None Run.refuse_nothing)
           "https://example.com/watch?v=abc"
           {| outtmpl := "%(title)s.%(ext)s";
              progress_hooks := [ {| hook_chat_id := 7; hook_message_id := 0 |} ];
              restrictfilenames := true;
              format := Some "worstvideo+worstaudio/worst";
              postprocessors := Some (steps VideoLow) |}
           (record_call (starting 7) Accepted Run.start)
         = (Raise (Exception (MISSING +:+ "clip.mp4")), w1))
  ∧ ∃ tr o,
      calls (callback_query_handler (Run.env true "clip" None Run.refuse_nothing)
               "video_low:https://example.com/watch?v=abc" 7 Run.start).2
      = [] ++ tr
      ∧ tr = [(starting 7, Accepted);
              (failure 7 (MISSING +:+ "clip.mp4"), o)]
      ∧ Forall (λ c, is_delivery_call c.1 = false) tr.
Proof.
  apply (artifact_missing (Run.env true "clip" None Run.refuse_nothing)
           "video_low:https://example.com/watch?v=abc"
           "video_low" "https://example.com/watch?v=abc" 7 Run.start
           _ "clip" ∅ []); reflexivity.
Defined.

(** C2. When the engine leaves the derived artifact with no bytes in it,
    [download_file] raises with the empty-file reason, the handler sends
    the error message, and the file is on disk when the handler is done:
    nothing on this path removes it. *)
Theorem empty_artifact_stays (E : Env) (data option url : string)
    (chat_id : Z) (w : World) (opts : YdlOpts) (title : string)
    (fs : gmap string N) (ss : list sample) :
  unpack2 (Py.split1 ":"%char data) = Ok (option, url) →
  sink E (calls w) (starting chat_id) = Accepted →
  get_ydl_opts E option chat_id (new_message_id E (calls w)) = Ok opts →
  extract_info E url opts (files w) = (Ok title, fs, ss) →
  fs !! artifact_name option title = Some 0%N →
  (∃ w1, download_file E url opts (record_call (starting chat_id) Accepted w)
         = (Raise (Exception EMPTY), w1))
  ∧ (∃ o, calls (callback_query_handler E data chat_id w).2
          = calls w ++ [(starting chat_id, Accepted);
                        (failure chat_id EMPTY, o)])
  ∧ files (callback_query_handler E data chat_id w).2
      !! artifact_name option title = Some 0%N.
Proof.
  intros Hd Hs Ho He Hn.
  destruct (download_file_empty E url opts
              (record_call (starting chat_id) Accepted w)
              title (artifact_name option title) fs ss)
    as (w1 & Hdl & Hfs & _); [done|by eapply derived_name_resolved|done|].
  split; [by exists w1|].
  destruct (handler_download_failed E data option url chat_id w w1 opts _
              Hd Hs Ho Hdl) as (o & Hc & Hf).
  split; [by exists o|]. by rewrite Hf, Hfs.
Qed.

Lemma empty_artifact_stays_witness :
  let E := Run.env true "clip" (Some ("clip.mp4"%string, 0%N))
             Run.refuse_nothing in
  (∃ w1, download_file E "https://example.com/watch?v=abc"
           {| outtmpl := "%(title)s.%(ext)s";
              progress_hooks := [ {| hook_chat_id := 7; hook_message_id := 0 |} ];
              restrictfilenames := true;
              format := Some "bestvideo+bestaudio/best";
              postprocessors := Some (steps VideoHigh) |}
           (record_call (starting 7) Accepted Run.start)
         = (Raise (Exception EMPTY), w1))
  ∧ (∃ o, calls (callback_query_handler E
                   "video_high:https://example.com/watch?v=abc" 7 Run.start).2
          = [] ++ [(starting 7, Accepted); (failure 7 EMPTY, o)])
  ∧ files (callback_query_handler E
             "video_high:https://example.com/watch?v=abc" 7 Run.start).2
      !! "clip.mp4" = Some 0%N.
Proof.
  apply (empty_artifact_stays
           (Run.env true "clip" (Some ("clip.mp4"%string, 0%N))
              Run.refuse_nothing)
           "video_high:https://example.com/watch?v=abc"
           "video_high" "https://example.com/watch?v=abc" 7 Run.start
           _ "clip" {[ "clip.mp4" := 0%N ]} []); reflexivity.
Defined.


(** The files after the handler are those after the job: the [except]
    clause sends and logs, nothing else. *)
Lemma handler_files (E : Env) (data option url : string) (chat_id : Z)
    (w : World) :
  unpack2 (Py.split1 ":"%char data) = Ok (option, url) →
  sink E (calls w) (starting chat_id) = Accepted →
  files (callback_query_handler E data chat_id w).2
  = files (job E option url chat_id (new_message_id E (calls w))
             (record_call (starting chat_id) Accepted w)).2.
Proof.
  intros Hd Hs. rewrite (handler_run E data option url) by done.
  destruct (job E option url chat_id _ _) as [[[]|e] w']; [done|].
  by destruct (sink E (calls w') (failure chat_id (str e))).
Qed.

(** Once [send_file] has returned, the artifact is removed, whatever the
    chat answers to the completed edit. *)
Lemma job_removes (E : Env) (option url : string) (chat_id message_id : Z)
    (w w1 w2 : World) (opts : YdlOpts) (f : string) :
  get_ydl_opts E option chat_id message_id = Ok opts →
  download_file E url opts w = (Ok f, w1) →
  send_file E chat_id f option w1 = (Ok tt, w2) →
  files w2 = files w1 →
  files (job E option url chat_id message_id w).2 = delete f (files w1).
Proof.
  intros Ho Hdl Hsend Hfs. unfold job.
  unfold mbind at 1; unfold M_bind, bind, lift. rewrite Ho.
  unfold mbind at 1. rewrite Hdl.
  unfold mbind at 1. rewrite Hsend.
  apply download_file_ok in Hdl as (n & Hf & _).
  unfold mbind at 1. unfold remove at 1. rewrite Hfs, Hf.
  unfold edit_message_text, request. simpl.
  by destruct (sink E _ _).
Qed.

(** The success path under the proviso it needs: when the delivery is
    accepted, or is rejected and the notice about it is accepted, the
    artifact is gone when the handler is done. *)
Lemma artifact_removed (E : Env) (data option url : string) (chat_id : Z)
    (w w1 : World) (opts : YdlOpts) (f : string) :
  unpack2 (Py.split1 ":"%char data) = Ok (option, url) →
  sink E (calls w) (starting chat_id) = Accepted →
  get_ydl_opts E option chat_id (new_message_id E (calls w)) = Ok opts →
  download_file E url opts (record_call (starting chat_id) Accepted w)
    = (Ok f, w1) →
  (∀ r, sink E (calls w1) (delivery option chat_id f) = Rejected r →
        sink E (calls w1 ++ [(delivery option chat_id f, Rejected r)])
          (notice chat_id r) = Accepted) →
  files (callback_query_handler E data chat_id w).2 !! f = None.
Proof.
  intros Hd Hs Ho Hdl Hnotice.
  rewrite (handler_files E data option url) by done.
  destruct (send_file_run E chat_id f option w1) as (w2 & Hfs & Hsend).
  destruct (sink E (calls w1) (delivery option chat_id f)) as [|r] eqn:HD.
  - destruct Hsend as [Hsend _].
    rewrite (job_removes E option url chat_id _ _ w1 w2 opts f) by done.
    apply lookup_delete_eq.
  - rewrite (Hnotice r eq_refl) in Hsend. destruct Hsend as [Hsend _].
    rewrite (job_removes E option url chat_id _ _ w1 w2 opts f) by done.
    apply lookup_delete_eq.
Qed.

(** C8. The success path with a chat that rejects the delivery and then
    the notice about it: extraction and validation succeed, the exception
    of the notice leaves [send_file], the handler goes to its [except]
    clause, and the artifact is still on disk when the handler is done. *)
Theorem artifact_left_when_notice_rejected :
  let E := Run.env true "my-title" (Some ("my-title.mp4"%string, 512000%N))
             (Run.refuse_delivery_and_notice "Request timeout error") in
  let url := "https://example.com/watch?v=abc"%string in
  let w := callback_query_handler E (payload "video_low" url) 7 Run.start in
  (∃ opts w1,
     get_ydl_opts E "video_low" 7 0 = Ok opts
     ∧ download_file E url opts (record_call (starting 7) Accepted Run.start)
       = (Ok "my-title.mp4"%string, w1))
  ∧ w.1 = Ok tt
  ∧ calls w.2
    = [ (starting 7, Accepted);
        (SendVideo 7 "my-title.mp4", Rejected "Request timeout error");
        (notice 7 "Request timeout error", Rejected "Request timeout error");
        (failure 7 "Request timeout error", Accepted) ]
  ∧ files w.2 !! "my-title.mp4" = Some 512000%N.
Proof.
  split; [|by vm_compute].
  eexists _, _. split; [reflexivity|]. by vm_compute.
Qed.











(** * Further properties *)

(** ** Decoding, in full *)

Lemma split1_shape (sep : Ascii.ascii) (s : string) :
  (contains sep s = false ∧ Py.split1 sep s = [s])
  ∨ (∃ pre post, contains sep pre = false
       ∧ s = pre +:+ String sep post
       ∧ Py.split1 sep s = [pre; post]).
Proof.
  induction s as [|c s IH]; simpl; [by left|].
  destruct (Ascii.eqb c sep) eqn:Hc.
  - right. exists EmptyString, s. apply Ascii.eqb_eq in Hc as ->. done.
  - destruct IH as [[Hs ->]|(pre & post & Hpre & -> & ->)].
    + left. by rewrite Hs.
    + right. exists (String c pre), post. simpl. by rewrite Hc, Hpre.
Qed.

(** X1. The unpacking of the split succeeds exactly on the payloads that
    hold a colon; the option it yields has no colon in it, and the option,
    a colon and the URL make up the payload again. *)
Theorem decode_characterised (data : string) :
  match unpack2 (Py.split1 ":"%char data) with
  | Ok (option, url) =>
      contains ":"%char data = true
      ∧ contains ":"%char option = false
      ∧ payload option url = data
  | Raise e =>
      contains ":"%char data = false
      ∧ e = ValueError "not enough values to unpack (expected 2, got 1)"
  end.
Proof.
  destruct (split1_shape ":"%char data)
    as [[Hs ->]|(pre & post & Hpre & -> & ->)]; simpl; [done|].
  split_and!; [|done|done].
  clear Hpre. induction pre as [|c pre IH]; simpl; [done|].
  rewrite IH. apply orb_true_r.
Qed.

(** ** Prompt *)

(** X2. The keyboard of [handle_url] has the two video buttons, and the
    audio button exactly when the transcoder is there; the payload of each
    button, cut as the handler cuts it, gives the tag of the button and the
    URL of the message. *)
Theorem keyboard_decodes (E : Env) (url : string) :
  length (concat (keyboard E url)) = (if FFMPEG_AVAILABLE E then 3 else 2)%nat
  ∧ (unpack2 ∘ Py.split1 ":"%char ∘ callback_data) <$> concat (keyboard E url)
    = (λ p, Ok (tag p, url))
        <$> ([VideoHigh; VideoLow]
               ++ if FFMPEG_AVAILABLE E then [AudioOnly] else []).
Proof.
  assert (Hp : ∀ p, unpack2 (Py.split1 ":"%char (payload (tag p) url))
                    = Ok (tag p, url)).
  { intros p. unfold payload.
    change (":" +:+ url) with (String ":"%char url).
    by rewrite split1_cut by apply tag_no_colon. }
  unfold keyboard.
  destruct (FFMPEG_AVAILABLE E); (split; [done|]);
    cbn - [Py.split1 unpack2 payload tag];
    repeat (f_equal; try apply Hp).
Qed.

(** X3. What [handle_url] sends.  With the transcoder it makes one request,
    the prompt with the keyboard.  Without it the warning goes first, and
    the prompt follows only if the warning was accepted.  The message text
    is logged before anything is sent, and the handler returns normally
    exactly when its last request was accepted. *)
Theorem handle_url_requests (E : Env) (message_text : option string)
    (chat_id user_id : Z) (w : World) :
  let url := Py.str_of_optional message_text in
  let prompt := SendMessage chat_id PROMPT (Some (keyboard E url)) in
  let warning := SendMessage chat_id WARNING None in
  let '(r, w') := handle_url E message_text chat_id user_id w in
  files w' = files w
  ∧ log w' = log w ++ [(INFO, "Received URL: " +:+ url +:+ " from user "
                                +:+ pretty user_id)]
  ∧ ∃ tr o,
      calls w' = calls w ++ tr
      ∧ last tr = Some o
      ∧ r = match o.2 with
            | Accepted => Ok tt
            | Rejected reason => Raise (TelegramAPIError reason)
            end
      ∧ if FFMPEG_AVAILABLE E then tr = [(prompt, o.2)]
        else tr = [(warning, o.2)] ∧ (∃ reason, o.2 = Rejected reason)
             ∨ tr = [(warning, Accepted); (prompt, o.2)].
Proof.
  unfold handle_url, PROMPT, WARNING. run.
  destruct (FFMPEG_AVAILABLE E); simpl.
  - destruct (sink E (calls w) _) as [|reason] eqn:Hs; simpl;
      (split_and!; [done..|]); eexists _, (_, _);
      (split_and!; [done|done|done|done]).
  - destruct (sink E (calls w) _) as [|reason] eqn:Hs; simpl.
    + destruct (sink E (calls w ++ _) _) as [|reason] eqn:Hs'; simpl;
        (split_and!; [done..|]); eexists _, (_, _);
        (split_and!; [by rewrite <- app_assoc|done|done|by right]).
    + (split_and!; [done..|]). eexists _, (_, _).
      split_and!; [done|done|done|left; eauto].
Qed.

(** ** Option resolver, in full *)

(** X4. [get_ydl_opts] raises in one case only: the option is [audio] and
    the transcoder is missing, with the reason that says so.  In particular
    no option that starts with [video] is ever refused, transcoder or not,
    although its configuration asks for the MP4 conversion. *)
Theorem get_ydl_opts_raises_iff (E : Env) (option : string)
    (chat_id message_id : Z) (e : exn) :
  get_ydl_opts E option chat_id message_id = Raise e
  ↔ option = DownloadOption.AUDIO ∧ FFMPEG_AVAILABLE E = false
    ∧ e = Exception UNAVAILABLE.
Proof.
  unfold get_ydl_opts. split.
  - destruct (Py.startswith option "video"); [done|].
    destruct (String.eqb option DownloadOption.AUDIO) eqn:Ha; [|done].
    apply String.eqb_eq in Ha.
    destruct (FFMPEG_AVAILABLE E); [done|]. by intros [= <-].
  - intros (-> & -> & ->). reflexivity.
Qed.

(** X5. Every option that starts with [video] and is not [video_high]
    itself gets the worst-quality selector: [video_low], but also [video]
    alone or any longer tag.  Only [video_high] gets the best one. *)
Theorem get_ydl_opts_video (E : Env) (option : string)
    (chat_id message_id : Z) :
  Py.startswith option "video" = true →
  ∃ opts,
    get_ydl_opts E option chat_id message_id = Ok opts
    ∧ (format opts = Some "bestvideo+bestaudio/best"
       ↔ option = DownloadOption.VIDEO_HIGH)
    ∧ (format opts = Some "worstvideo+worstaudio/worst"
       ↔ option ≠ DownloadOption.VIDEO_HIGH)
    ∧ postprocessors opts = Some (steps VideoLow).
Proof.
  intros Hv. unfold get_ydl_opts. rewrite Hv. eexists. split; [done|].
  simpl. destruct (String.eqb option DownloadOption.VIDEO_HIGH) eqn:Hh.
  - apply String.eqb_eq in Hh. split_and!; [done| |done].
    split; [done|]. by intros [].
  - apply String.eqb_neq in Hh. split_and!; [|done|done].
    split; [done|]. by intros ?.
Qed.

Lemma get_ydl_opts_video_witness :
  ∃ opts,
    get_ydl_opts (Run.env false "t" None Run.refuse_nothing) "video" 7 3
      = Ok opts
    ∧ (format opts = Some "bestvideo+bestaudio/best"
       ↔ "video" = DownloadOption.VIDEO_HIGH)
    ∧ (format opts = Some "worstvideo+worstaudio/worst"
       ↔ "video" ≠ DownloadOption.VIDEO_HIGH)
    ∧ postprocessors opts = Some (steps VideoLow).
Proof.
  apply (get_ydl_opts_video _ "video" 7 3). reflexivity.
Defined.

(** X6. Whatever the option, a configuration that [get_ydl_opts] returns
    has the output template, restricted file names, and one progress hook,
    bound to the chat and the status message of the request; and the
    artifact it makes the job runner look for is the title with [.mp3] for
    [audio] and with [.mp4] for every other option. *)
Theorem get_ydl_opts_invariants (E : Env) (option : string)
    (chat_id message_id : Z) (opts : YdlOpts) :
  get_ydl_opts E option chat_id message_id = Ok opts →
  outtmpl opts = "%(title)s.%(ext)s"
  ∧ restrictfilenames opts = true
  ∧ progress_hooks opts
    = [ {| hook_chat_id := chat_id; hook_message_id := message_id |} ]
  ∧ (is_Some (format opts) ↔ is_Some (postprocessors opts))
  ∧ ∀ title, derived_name title opts = Ok (artifact_name option title).
Proof.
  intros Ho. split_and!.
  5: { intros title. by eapply derived_name_resolved. }
  all: revert Ho; unfold get_ydl_opts;
    destruct (Py.startswith option "video");
    [|destruct (String.eqb option DownloadOption.AUDIO);
      [destruct (FFMPEG_AVAILABLE E)|]];
    try discriminate; intros [= <-]; simpl; done.
Qed.

Lemma get_ydl_opts_invariants_witness :
  let opts := {| outtmpl := "%(title)s.%(ext)s";
                 progress_hooks :=
                   [ {| hook_chat_id := 7; hook_message_id := 3 |} ];
                 restrictfilenames := true;
                 format := Some "bestaudio/best";
                 postprocessors := Some (steps AudioOnly) |} in
  outtmpl opts = "%(title)s.%(ext)s"
  ∧ restrictfilenames opts = true
  ∧ progress_hooks opts
    = [ {| hook_chat_id := 7; hook_message_id := 3 |} ]
  ∧ (is_Some (format opts) ↔ is_Some (postprocessors opts))
  ∧ ∀ title, derived_name title opts = Ok (artifact_name "audio" title).
Proof.
  apply (get_ydl_opts_invariants
           (Run.env true "t" None Run.refuse_nothing) "audio" 7 3).
  reflexivity.
Defined.

(** ** Job runner, in full *)

Lemma download_file_log (E : Env) (url : string) (opts : YdlOpts)
    (w w' : World) (e : exn) :
  download_file E url opts w = (Raise e, w') →
  last (log w') = Some (ERROR, "Error in download_file: " +:+ str e).
Proof.
  unfold download_file, run_engine. run.
  destruct (extract_info E url opts (files w)) as [[[title|e0] fs] ss]; simpl.
  2:{ intros [= <- <-]. simpl. by rewrite last_snoc. }
  destruct (derived_name title opts) as [name|e0]; simpl.
  2:{ intros [= <- <-]. simpl. by rewrite last_snoc. }
  destruct (fs !! name) as [n|] eqn:Hn; simpl; rewrite ?Hn; simpl.
  2:{ intros [= <- <-]. simpl. by rewrite last_snoc. }
  destruct (n =? 0)%N; [|done].
  intros [= <- <-]. simpl. by rewrite last_snoc.
Qed.

(** X7. [download_file] never makes a request to the chat.  When it
    returns a name, the file of that name is on disk and is not empty.
    When it raises, the last log record is the ERROR record with the
    string of the exception it raises. *)
Theorem download_file_outcomes (E : Env) (url : string) (opts : YdlOpts)
    (w : World) :
  let '(r, w') := download_file E url opts w in
  calls w' = calls w
  ∧ match r with
    | Ok name => ∃ n, files w' !! name = Some n ∧ n ≠ 0%N
    | Raise e =>
        last (log w') = Some (ERROR, "Error in download_file: " +:+ str e)
    end.
Proof.
  pose proof (download_file_calls E url opts w) as Hc.
  destruct (download_file E url opts w) as [[name|e] w'] eqn:Hdl.
  - split; [done|]. by eapply download_file_ok.
  - split; [done|]. by eapply download_file_log.
Qed.

(** X8. When the engine raises, [download_file] raises the same
    exception, the files are as the engine left them, and the handler
    tells the user the string of that exception and makes no delivery
    call. *)
Theorem extraction_failed (E : Env) (data option url : string) (chat_id : Z)
    (w : World) (opts : YdlOpts) (e : exn) (fs : gmap string N)
    (ss : list sample) :
  unpack2 (Py.split1 ":"%char data) = Ok (option, url) →
  sink E (calls w) (starting chat_id) = Accepted →
  get_ydl_opts E option chat_id (new_message_id E (calls w)) = Ok opts →
  extract_info E url opts (files w) = (Raise e, fs, ss) →
  (download_file E url opts (record_call (starting chat_id) Accepted w)).1
    = Raise e
  ∧ files (callback_query_handler E data chat_id w).2 = fs
  ∧ ∃ o, calls (callback_query_handler E data chat_id w).2
         = calls w ++ [(starting chat_id, Accepted);
                       (failure chat_id (str e), o)].
Proof.
  intros Hd Hs Ho He.
  assert (Hdl : ∃ w1, download_file E url opts
                        (record_call (starting chat_id) Accepted w)
                      = (Raise e, w1) ∧ files w1 = fs).
  { unfold download_file, run_engine. run. rewrite He. simpl. by eexists. }
  destruct Hdl as (w1 & Hdl & Hfs).
  destruct (handler_download_failed E data option url chat_id w w1 opts e
              Hd Hs Ho Hdl) as (o & Hc & Hf).
  rewrite Hdl, Hf. split_and!; [done|done|by exists o].
Qed.

Lemma extraction_failed_witness :
  let E := {| FFMPEG_AVAILABLE := true;
              float := Run.float1;
              extract_info := λ _ _ fs,
                (Raise (Exception "Unsupported URL"),
                 <["clip.mp4.part" := 1024%N]> fs, []);
              sink := Run.chat Run.refuse_nothing;
              new_message_id := λ h, Z.of_nat (length h) |} in
  let opts := {| outtmpl := "%(title)s.%(ext)s";
                 progress_hooks :=
                   [ {| hook_chat_id := 7; hook_message_id := 0 |} ];
                 restrictfilenames := true;
                 format := Some "bestvideo+bestaudio/best";
                 postprocessors := Some (steps VideoHigh) |} in
  (download_file E "https://example.com/x" opts
     (record_call (starting 7) Accepted Run.start)).1
    = Raise (Exception "Unsupported URL")
  ∧ files (callback_query_handler E "video_high:https://example.com/x" 7
             Run.start).2 = {[ "clip.mp4.part" := 1024%N ]}
  ∧ ∃ o, calls (callback_query_handler E "video_high:https://example.com/x"
                  7 Run.start).2
         = [] ++ [(starting 7, Accepted);
                  (failure 7 (str (Exception "Unsupported URL")), o)].
Proof.
  apply (extraction_failed _ "video_high:https://example.com/x"
           "video_high" "https://example.com/x" 7 Run.start _
           (Exception "Unsupported URL") _ []); reflexivity.
Defined.

(** ** Request coordinator, in full *)

Lemma download_file_success (E : Env) (url : string) (opts : YdlOpts)
    (w : World) (title name : string) (fs : gmap string N) (ss : list sample)
    (n : N) :
  extract_info E url opts (files w) = (Ok title, fs, ss) →
  derived_name title opts = Ok name →
  fs !! name = Some n → n ≠ 0%N →
  ∃ w', download_file E url opts w = (Ok name, w')
        ∧ files w' = fs ∧ calls w' = calls w.
Proof.
  intros He Hd Hn Hn0. unfold download_file, run_engine. run.
  rewrite He. simpl. rewrite Hd. simpl. rewrite Hn. simpl. rewrite Hn. simpl.
  apply N.eqb_neq in Hn0. rewrite Hn0. by eexists.
Qed.

(** The job after a download that succeeded, by what the chat answers to
    the delivery. *)
Lemma job_delivered (E : Env) (option url : string) (chat_id message_id : Z)
    (w w1 : World) (opts : YdlOpts) (name : string) :
  get_ydl_opts E option chat_id message_id = Ok opts →
  download_file E url opts w = (Ok name, w1) →
  sink E (calls w1) (delivery option chat_id name) = Accepted →
  let C := completed chat_id message_id in
  let tr := [(delivery option chat_id name, Accepted)] in
  ∃ w',
    job E option url chat_id message_id w
    = (match sink E (calls w1 ++ tr) C with
       | Accepted => Ok tt
       | Rejected r => Raise (TelegramAPIError r)
       end, w')
    ∧ files w' = delete name (files w1)
    ∧ calls w' = calls w1 ++ tr ++ [(C, sink E (calls w1 ++ tr) C)].
Proof.
  intros Ho Hdl HD C tr. unfold job.
  unfold mbind at 1; unfold M_bind, bind, lift. rewrite Ho.
  unfold mbind at 1. rewrite Hdl.
  destruct (send_file_run E chat_id name option w1) as (w2 & Hfs & Hsend).
  rewrite HD in Hsend. destruct Hsend as [Hsend Hc2].
  unfold mbind at 1. rewrite Hsend.
  apply download_file_ok in Hdl as (n & Hf & _).
  unfold mbind at 1. unfold remove at 1. rewrite Hfs, Hf.
  unfold edit_message_text, request. simpl. rewrite Hc2.
  change (EditMessageText chat_id message_id COMPLETED) with C.
  change [(delivery option chat_id name, Accepted)] with tr.
  destruct (sink E (calls w1 ++ tr) C); eexists; (split; [reflexivity|]);
    simpl; by rewrite <- app_assoc.
Qed.

(** X9. The success path.  When the engine leaves the derived artifact
    with bytes in it and the chat accepts the delivery and the completed
    edit, the handler returns normally, its requests are the starting
    message, one delivery call with the artifact and the completed edit
    of the starting message, and the files are those the engine left
    without the artifact. *)
Theorem handler_success (E : Env) (data option url : string) (chat_id : Z)
    (w : World) (opts : YdlOpts) (title : string) (fs : gmap string N)
    (ss : list sample) (n : N) :
  let name := artifact_name option title in
  let message_id := new_message_id E (calls w) in
  let D := delivery option chat_id name in
  unpack2 (Py.split1 ":"%char data) = Ok (option, url) →
  sink E (calls w) (starting chat_id) = Accepted →
  get_ydl_opts E option chat_id message_id = Ok opts →
  extract_info E url opts (files w) = (Ok title, fs, ss) →
  fs !! name = Some n → n ≠ 0%N →
  sink E (calls w ++ [(starting chat_id, Accepted)]) D = Accepted →
  sink E (calls w ++ [(starting chat_id, Accepted); (D, Accepted)])
    (completed chat_id message_id) = Accepted →
  ∃ w',
    callback_query_handler E data chat_id w = (Ok tt, w')
    ∧ calls w' = calls w ++ [(starting chat_id, Accepted); (D, Accepted);
                             (completed chat_id message_id, Accepted)]
    ∧ files w' = delete name fs.
Proof.
  intros name message_id D Hd Hs Ho He Hn Hn0 HD HC.
  destruct (download_file_success E url opts
              (record_call (starting chat_id) Accepted w)
              title name fs ss n)
    as (w1 & Hdl & Hfs & Hc1);
    [done|by eapply derived_name_resolved|done|done|].
  simpl in Hc1.
  destruct (job_delivered E option url chat_id message_id _ w1 opts name
              Ho Hdl) as (w' & Hjob & Hf & Hc); [by rewrite Hc1|].
  replace (calls w ++ [(starting chat_id, Accepted); (D, Accepted)])
    with ((calls w ++ [(starting chat_id, Accepted)]) ++ [(D, Accepted)])
    in HC by (by rewrite <- app_assoc).
  cbv zeta in Hjob, Hc. rewrite Hc1 in Hjob, Hc.
  fold D in Hjob, Hc. rewrite HC in Hjob, Hc.
  rewrite (handler_run E data option url) by done.
  fold message_id. rewrite Hjob.
  exists w'. rewrite Hc, Hf, Hfs, <- !app_assoc. done.
Qed.

Lemma handler_success_witness :
  let E := Run.env true "my-title" (Some ("my-title.mp4"%string, 512000%N))
             Run.refuse_nothing in
  ∃ w',
    callback_query_handler E "video_low:https://example.com/watch?v=abc" 7
      Run.start = (Ok tt, w')
    ∧ calls w' = [] ++ [(starting 7, Accepted);
                        (delivery "video_low" 7
                           (artifact_name "video_low" "my-title"), Accepted);
                        (completed 7 0, Accepted)]
    ∧ files w' = delete (artifact_name "video_low" "my-title")
                   {[ "my-title.mp4" := 512000%N ]}.
Proof.
  apply (handler_success
           (Run.env true "my-title" (Some ("my-title.mp4"%string, 512000%N))
              Run.refuse_nothing)
           "video_low:https://example.com/watch?v=abc"
           "video_low" "https://example.com/watch?v=abc" 7 Run.start
           {| outtmpl := "%(title)s.%(ext)s";
              progress_hooks :=
                [ {| hook_chat_id := 7; hook_message_id := 0 |} ];
              restrictfilenames := true;
              format := Some "worstvideo+worstaudio/worst";
              postprocessors := Some (steps VideoLow) |}
           "my-title" {[ "my-title.mp4" := 512000%N ]} [] 512000%N);
    (reflexivity || discriminate).
Defined.

(** X10. An option that neither starts with [video] nor is [audio] goes
    through the whole job: it gets a configuration without a format, its
    artifact is looked for under the title with [.mp4], and [send_file]
    hands that file to [send_audio], since only the options that start
    with [video] are sent as video. *)
Theorem unknown_option_sent_as_audio (E : Env) (option : string)
    (chat_id message_id : Z) :
  Py.startswith option "video" = false →
  option ≠ DownloadOption.AUDIO →
  ∃ opts,
    get_ydl_opts E option chat_id message_id = Ok opts
    ∧ format opts = None
    ∧ (∀ title, derived_name title opts = Ok (title +:+ ".mp4"))
    ∧ ∀ file w, ∃ o tr,
        calls (send_file E chat_id file option w).2
        = calls w ++ (SendAudio chat_id file, o) :: tr.
Proof.
  intros Hv Ha. unfold get_ydl_opts. rewrite Hv.
  apply String.eqb_neq in Ha. rewrite Ha.
  eexists. split_and!; [done..|]. intros file w.
  destruct (send_file_run E chat_id file option w) as (w2 & _ & Hsend).
  unfold delivery in Hsend. rewrite Hv in Hsend.
  destruct (sink E (calls w) (SendAudio chat_id file)) as [|r].
  - destruct Hsend as [-> Hc]. simpl. rewrite Hc. by eexists _, [].
  - destruct (sink E _ (notice chat_id r)); destruct Hsend as [-> Hc];
      simpl; rewrite Hc; by eexists _, [_].
Qed.

Lemma unknown_option_sent_as_audio_witness :
  ∃ opts,
    get_ydl_opts (Run.env true "t" None Run.refuse_nothing) "gif" 7 3 = Ok opts
    ∧ format opts = None
    ∧ (∀ title, derived_name title opts = Ok (title +:+ ".mp4"))
    ∧ ∀ file w, ∃ o tr,
        calls (send_file (Run.env true "t" None Run.refuse_nothing)
                 7 file "gif" w).2
        = calls w ++ (SendAudio 7 file, o) :: tr.
Proof.
  apply (unknown_option_sent_as_audio _ "gif" 7 3); [reflexivity|discriminate].
Defined.

Lemma download_file_result (E : Env) (url : string) (opts : YdlOpts)
    (w : World) (r : result string) (fs : gmap string N) (ss : list sample) :
  extract_info E url opts (files w) = (r, fs, ss) →
  files (download_file E url opts w).2 = fs
  ∧ ∀ name, (download_file E url opts w).1 = Ok name →
            ∃ title, r = Ok title ∧ derived_name title opts = Ok name.
Proof.
  intros He. unfold download_file, run_engine. run. rewrite He.
  destruct r as [title|e]; simpl; [|done].
  destruct (derived_name title opts) as [name|e] eqn:Hder; simpl; [|done].
  destruct (fs !! name) as [n|] eqn:Hn; simpl; rewrite ?Hn; simpl; [|done].
  destruct (n =? 0)%N; simpl; [done|].
  split; [done|]. intros ? [= <-]. by exists title.
Qed.

(** X11. The handler touches no file but the artifact of its own job.
    Whatever the engine and the chat do, after the handler every path is
    as the engine left it, except the path of the artifact when the engine
    reported success. *)
Theorem handler_keeps_other_files (E : Env) (data option url : string)
    (chat_id : Z) (w : World) (opts : YdlOpts) (r : result string)
    (fs : gmap string N) (ss : list sample) (path : string) :
  unpack2 (Py.split1 ":"%char data) = Ok (option, url) →
  sink E (calls w) (starting chat_id) = Accepted →
  get_ydl_opts E option chat_id (new_message_id E (calls w)) = Ok opts →
  extract_info E url opts (files w) = (r, fs, ss) →
  (∀ title, r = Ok title → path ≠ artifact_name option title) →
  files (callback_query_handler E data chat_id w).2 !! path = fs !! path.
Proof.
  intros Hd Hs Ho He Hpath.
  rewrite (handler_files E data option url) by done.
  set (w0 := record_call (starting chat_id) Accepted w).
  destruct (download_file_result E url opts w0 r fs ss He) as [Hfs Hname].
  unfold job. unfold mbind at 1; unfold M_bind, bind, lift. rewrite Ho.
  unfold mbind at 1.
  destruct (download_file E url opts w0) as [[name|e] w1] eqn:Hdl;
    simpl in Hfs, Hname; [|simpl; by rewrite Hfs].
  destruct (Hname name eq_refl) as (title & -> & Hder).
  rewrite (derived_name_resolved E option title _ _ opts Ho) in Hder.
  injection Hder as <-.
  destruct (send_file_run E chat_id (artifact_name option title) option w1)
    as (w2 & Hfs2 & Hsend).
  apply download_file_ok in Hdl as (n & Hf & _).
  assert (Hgo : ∀ w2', files w2' = files w1 →
            files (((remove (artifact_name option title);;
                     edit_message_text E chat_id
                       (new_message_id E (calls w)) COMPLETED) w2').2)
              !! path = fs !! path).
  { intros w2' Hw2'. unfold mbind, M_bind, bind, remove.
    rewrite Hw2', Hf. unfold edit_message_text, request. simpl.
    assert (artifact_name option title ≠ path)
      by (intros <-; by eapply Hpath).
    destruct (sink E (calls w2') _); simpl;
      by rewrite lookup_delete_ne, Hfs. }
  unfold mbind at 1.
  destruct (sink E (calls w1) _) as [|r1].
  - destruct Hsend as [-> _]. by apply Hgo.
  - destruct (sink E _ (notice chat_id r1)); destruct Hsend as [-> _].
    + by apply Hgo.
    + simpl. by rewrite Hfs2, Hfs.
Qed.

Lemma handler_keeps_other_files_witness :
  files (callback_query_handler
           {| FFMPEG_AVAILABLE := true;
              float := Run.float1;
              extract_info := Run.engine "b" (Some ("b.mp4"%string, 9%N));
              sink := Run.chat Run.refuse_nothing;
              new_message_id := λ h, Z.of_nat (length h) |}
           "video_high:https://example.com/b" 7
           {| files := {[ "a.mp4" := 5%N ]}; calls := []; log := [];
              tasks := [] |}).2 !! "a.mp4"
  = (<["b.mp4" := 9%N]> {[ "a.mp4" := 5%N ]} : gmap string N) !! "a.mp4".
Proof.
  apply (handler_keeps_other_files _ "video_high:https://example.com/b"
           "video_high" "https://example.com/b" 7 _
           {| outtmpl := "%(title)s.%(ext)s";
              progress_hooks :=
                [ {| hook_chat_id := 7; hook_message_id := 0 |} ];
              restrictfilenames := true;
              format := Some "bestvideo+bestaudio/best";
              postprocessors := Some (steps VideoHigh) |}
           (Ok "b"%string) _ []); try reflexivity.
  intros title [= <-]. discriminate.
Defined.

(** X12. The audio option without the transcoder starts no job: the
    handler sends the starting message and then one error message with the
    reason of the option resolver, the engine is not called, and files and
    tasks are as they were. *)
Theorem audio_unavailable (E : Env) (data url : string) (chat_id : Z)
    (w : World) :
  unpack2 (Py.split1 ":"%char data) = Ok (DownloadOption.AUDIO, url) →
  FFMPEG_AVAILABLE E = false →
  sink E (calls w) (starting chat_id) = Accepted →
  let w' := (callback_query_handler E data chat_id w).2 in
  (∃ o, calls w' = calls w ++ [(starting chat_id, Accepted);
                               (failure chat_id UNAVAILABLE, o)])
  ∧ files w' = files w
  ∧ tasks w' = tasks w.
Proof.
  intros Hd Hff Hs.
  rewrite (handler_run E data DownloadOption.AUDIO url) by done.
  unfold job. unfold mbind at 1; unfold M_bind, bind, lift.
  unfold get_ydl_opts. rewrite Hff. simpl.
  destruct (sink E _ (failure chat_id UNAVAILABLE)) as [|r] eqn:Ho; simpl;
    (split_and!; [|done|done]); eexists; by rewrite <- app_assoc.
Qed.

Lemma audio_unavailable_witness :
  let E := Run.env false "t" (Some ("t.mp3"%string, 10%N))
             Run.refuse_nothing in
  let w' := (callback_query_handler E "audio:https://example.com/a" 7
               Run.start).2 in
  (∃ o, calls w' = [] ++ [(starting 7, Accepted);
                          (failure 7 UNAVAILABLE, o)])
  ∧ files w' = ∅
  ∧ tasks w' = [].
Proof.
  apply (audio_unavailable (Run.env false "t" (Some ("t.mp3"%string, 10%N))
                              Run.refuse_nothing)
           "audio:https://example.com/a" "https://example.com/a" 7 Run.start);
    reflexivity.
Defined.

(** Every run of the handler, by how far it got. *)
Lemma handler_trace_all (E : Env) (data : string) (chat_id : Z)
    (w w' : World) (r : result unit) :
  callback_query_handler E data chat_id w = (r, w') →
  (∃ e, unpack2 (Py.split1 ":"%char data) = Raise e ∧ r = Raise e ∧ w' = w)
  ∨ (∃ reason, r = Raise (TelegramAPIError reason)
       ∧ calls w' = calls w ++ [(starting chat_id, Rejected reason)])
  ∨ (∃ option rj trj,
       job_shape option chat_id (new_message_id E (calls w)) rj trj
       ∧ match rj with
         | Ok _ =>
             r = Ok tt
             ∧ calls w' = calls w ++ (starting chat_id, Accepted) :: trj
         | Raise e =>
             ∃ o, calls w' = calls w ++ (starting chat_id, Accepted)
                               :: trj ++ [(failure chat_id (str e), o)]
                  ∧ r = match o with
                        | Accepted => Ok tt
                        | Rejected reason => Raise (TelegramAPIError reason)
                        end
         end).
Proof.
  intros Hrun.
  destruct (unpack2 (Py.split1 ":"%char data)) as [[option url]|e] eqn:Hd.
  2:{ left. exists e. unfold callback_query_handler in Hrun.
      unfold mbind at 1 in Hrun; unfold M_bind, bind, lift in Hrun.
      rewrite Hd in Hrun. by injection Hrun as <- <-. }
  right.
  destruct (sink E (calls w) (starting chat_id)) as [|reason] eqn:Hs.
  2:{ left. exists reason. unfold callback_query_handler in Hrun.
      unfold mbind at 1 in Hrun; unfold M_bind, bind, lift in Hrun.
      rewrite Hd in Hrun. unfold mbind at 1 in Hrun.
      unfold send_message, request in Hrun.
      unfold mbind at 1 in Hrun; unfold M_bind, bind in Hrun.
      fold (starting chat_id) in Hrun. rewrite Hs in Hrun.
      by injection Hrun as <- <-. }
  right. rewrite (handler_run E data option url) in Hrun by done.
  destruct (job E option url chat_id _ _) as [rj w2] eqn:Hjob.
  destruct (job_trace _ _ _ _ _ _ _ _ Hjob) as (trj & Hc & Hshape).
  simpl in Hc. exists option, rj, trj. split; [done|].
  destruct rj as [[]|e].
  - injection Hrun as <- <-. by rewrite Hc, <- app_assoc.
  - exists (sink E (calls w2) (failure chat_id (str e))).
    destruct (sink E (calls w2) (failure chat_id (str e)));
      injection Hrun as <- <-; simpl; by rewrite Hc, <- !app_assoc.
Qed.

(** X13. The handler raises only when the payload has no colon, or when
    the chat rejects the starting message or the error message: then the
    exception is the chat's, and that rejected message is its last
    request.  Rejections of the delivery, of the notice about it and of the
    completed edit never leave the handler. *)
Theorem handler_raises_only (E : Env) (data : string) (chat_id : Z)
    (w w' : World) (e : exn) :
  callback_query_handler E data chat_id w = (Raise e, w') →
  (contains ":"%char data = false ∧ w' = w)
  ∨ ∃ c reason,
      e = TelegramAPIError reason
      ∧ last (calls w') = Some (c, Rejected reason)
      ∧ (c = starting chat_id ∨ ∃ text, c = failure chat_id text).
Proof.
  intros Hrun.
  destruct (handler_trace_all E data chat_id w w' _ Hrun)
    as [(e0 & Hd & _ & ->)|[(reason & He & Hc)|(option & rj & trj & _ & H)]].
  - left. split; [|done].
    destruct (split1_shape ":"%char data)
      as [[Hs _]|(pre & post & _ & _ & Hsp)]; [done|].
    by rewrite Hsp in Hd.
  - right. injection He as ->. exists (starting chat_id), reason.
    rewrite Hc, last_snoc. eauto.
  - right. destruct rj as [[]|e0]; [by destruct H|].
    destruct H as ([|reason] & Hc & He); [done|]. injection He as ->.
    exists (failure chat_id (str e0)), reason.
    rewrite Hc, app_comm_cons, app_assoc, last_snoc. eauto.
Qed.

Lemma handler_raises_only_witness :
  (contains ":"%char "video_high:u" = false
   ∧ (callback_query_handler
        (Run.env true "t" None (λ _, Some "Forbidden"%string))
        "video_high:u" 7 Run.start).2 = Run.start)
  ∨ ∃ c reason,
      TelegramAPIError "Forbidden" = TelegramAPIError reason
      ∧ last (calls (callback_query_handler
                       (Run.env true "t" None (λ _, Some "Forbidden"%string))
                       "video_high:u" 7 Run.start).2)
        = Some (c, Rejected reason)
      ∧ (c = starting 7 ∨ ∃ text, c = failure 7 text).
Proof.
  apply (handler_raises_only
           (Run.env true "t" None (λ _, Some "Forbidden"%string))
           "video_high:u" 7 Run.start). reflexivity.
Defined.

(** X14. In one run the handler makes at most five requests, among them
    at most one delivery call and at most one completed edit, accepted or
    not: a file is never sent twice. *)
Theorem handler_request_bounds (E : Env) (data : string) (chat_id : Z)
    (w : World) :
  ∃ tr,
    calls (callback_query_handler E data chat_id w).2 = calls w ++ tr
    ∧ (length tr ≤ 5)%nat
    ∧ (count (λ c, is_delivery_call c.1) tr ≤ 1)%nat
    ∧ (count (λ c, match c.1 with
                   | EditMessageText _ _ _ => true
                   | _ => false
                   end) tr ≤ 1)%nat.
Proof.
  destruct (callback_query_handler E data chat_id w) as [r w'] eqn:Hrun.
  destruct (handler_trace_all E data chat_id w w' _ Hrun)
    as [(e0 & _ & _ & ->)|[(reason & _ & Hc)|(option & rj & trj & Hsh & H)]].
  - exists []. rewrite app_nil_r. split_and!; (done || (vm_compute; lia)).
  - eexists. split; [exact Hc|]. split_and!; vm_compute; lia.
  - simpl.
    assert (Htr : ∃ tl, (∀ c, c ∈ tl → ∃ t o, c = (failure chat_id t, o))
                        ∧ (length tl ≤ 1)%nat
                        ∧ calls w' = calls w ++ (starting chat_id, Accepted)
                                       :: trj ++ tl).
    { destruct rj as [[]|e0].
      - destruct H as [_ Hc]. exists []. rewrite app_nil_r.
        split_and!; [by intros ? ?%elem_of_nil|simpl; lia|done].
      - destruct H as (o & Hc & _). exists [(failure chat_id (str e0), o)].
        split_and!; [|simpl; lia|done].
        intros c ->%list_elem_of_singleton. eauto. }
    destruct Htr as (tl & Htl & Hlen & Hc).
    eexists. split; [exact Hc|].
    destruct tl as [|c [|? ?]]; [| |simpl in Hlen; lia].
    + destruct Hsh; unfold delivery, count;
        destruct (Py.startswith option "video"); simpl; lia.
    + destruct (Htl c) as (t & o & ->); [by left|].
      destruct Hsh; unfold delivery, count;
        destruct (Py.startswith option "video"); simpl; lia.
Qed.

(** The job after a download that succeeded and a delivery that the chat
    rejected, when the notice about it is accepted. *)
Lemma job_undelivered_run (E : Env) (option url : string)
    (chat_id message_id : Z) (w w1 : World) (opts : YdlOpts)
    (name reason : string) :
  get_ydl_opts E option chat_id message_id = Ok opts →
  download_file E url opts w = (Ok name, w1) →
  let D := delivery option chat_id name in
  let C := completed chat_id message_id in
  let tr := [(D, Rejected reason); (notice chat_id reason, Accepted)] in
  sink E (calls w1) D = Rejected reason →
  sink E (calls w1 ++ [(D, Rejected reason)]) (notice chat_id reason)
    = Accepted →
  ∃ w',
    job E option url chat_id message_id w
    = (match sink E (calls w1 ++ tr) C with
       | Accepted => Ok tt
       | Rejected r => Raise (TelegramAPIError r)
       end, w')
    ∧ files w' = delete name (files w1)
    ∧ calls w' = calls w1 ++ tr ++ [(C, sink E (calls w1 ++ tr) C)].
Proof.
  intros Ho Hdl D C tr HD HN. unfold job.
  unfold mbind at 1; unfold M_bind, bind, lift. rewrite Ho.
  unfold mbind at 1. rewrite Hdl.
  destruct (send_file_run E chat_id name option w1) as (w2 & Hfs & Hsend).
  fold D in Hsend. rewrite HD, HN in Hsend. destruct Hsend as [Hsend Hc2].
  unfold mbind at 1. rewrite Hsend.
  apply download_file_ok in Hdl as (n & Hf & _).
  unfold mbind at 1. unfold remove at 1. rewrite Hfs, Hf.
  unfold edit_message_text, request. simpl. rewrite Hc2.
  change (EditMessageText chat_id message_id COMPLETED) with C.
  change [(D, Rejected reason); (notice chat_id reason, Accepted)] with tr.
  destruct (sink E (calls w1 ++ tr) C); eexists; (split; [reflexivity|]);
    simpl; by rewrite <- app_assoc.
Qed.

(** X15. The path of a rejected delivery.  When the artifact is there and
    the chat rejects the delivery but accepts the notice of [send_file],
    the handler goes on as after a delivery: it removes the artifact and
    asks for the completed edit, so its requests are the starting message,
    the rejected delivery, the notice with the reason of the rejection and
    the completed edit, and the artifact is gone. *)
Theorem handler_undelivered (E : Env) (data option url : string) (chat_id : Z)
    (w : World) (opts : YdlOpts) (title reason : string) (fs : gmap string N)
    (ss : list sample) (n : N) :
  let name := artifact_name option title in
  let message_id := new_message_id E (calls w) in
  let D := delivery option chat_id name in
  unpack2 (Py.split1 ":"%char data) = Ok (option, url) →
  sink E (calls w) (starting chat_id) = Accepted →
  get_ydl_opts E option chat_id message_id = Ok opts →
  extract_info E url opts (files w) = (Ok title, fs, ss) →
  fs !! name = Some n → n ≠ 0%N →
  sink E (calls w ++ [(starting chat_id, Accepted)]) D = Rejected reason →
  sink E (calls w ++ [(starting chat_id, Accepted); (D, Rejected reason)])
    (notice chat_id reason) = Accepted →
  let w' := (callback_query_handler E data chat_id w).2 in
  files w' = delete name fs
  ∧ ∃ tl, calls w' = calls w ++ [(starting chat_id, Accepted);
                                 (D, Rejected reason);
                                 (notice chat_id reason, Accepted)] ++ tl
          ∧ ∃ o, head tl = Some (completed chat_id message_id, o).
Proof.
  intros name message_id D Hd Hs Ho He Hn Hn0 HD HN.
  destruct (download_file_success E url opts
              (record_call (starting chat_id) Accepted w)
              title name fs ss n)
    as (w1 & Hdl & Hfs & Hc1);
    [done|by eapply derived_name_resolved|done|done|].
  simpl in Hc1.
  replace (calls w ++ [(starting chat_id, Accepted); (D, Rejected reason)])
    with ((calls w ++ [(starting chat_id, Accepted)])
            ++ [(D, Rejected reason)])
    in HN by (by rewrite <- app_assoc).
  destruct (job_undelivered_run E option url chat_id message_id _ w1 opts
              name reason Ho Hdl) as (w2 & Hjob & Hf & Hc);
    [by rewrite Hc1|by rewrite Hc1|].
  cbv zeta in Hjob, Hc. rewrite Hc1 in Hjob, Hc. fold D in Hjob, Hc.
  cbv zeta. rewrite (handler_run E data option url) by done.
  fold message_id. rewrite Hjob.
  set (o := sink E _ (completed chat_id message_id)) in *. clearbody o.
  destruct o as [|r].
  - simpl. split; [by rewrite Hf, Hfs|].
    eexists. rewrite Hc, <- !app_assoc. simpl. split; [done|]. by eexists.
  - destruct (sink E (calls w2) _); simpl;
      (split; [by rewrite Hf, Hfs|]); rewrite Hc, <- !app_assoc; simpl;
      (eexists; split; [done|by eexists]).
Qed.

Lemma handler_undelivered_witness :
  let E := Run.env true "my-title" (Some ("my-title.mp4"%string, 512000%N))
             (Run.refuse_delivery "Request Entity Too Large") in
  let D := delivery "video_low" 7 (artifact_name "video_low" "my-title") in
  let w' := (callback_query_handler E
               "video_low:https://example.com/watch?v=abc" 7 Run.start).2 in
  files w' = delete (artifact_name "video_low" "my-title")
               {[ "my-title.mp4" := 512000%N ]}
  ∧ ∃ tl, calls w' = [] ++ [(starting 7, Accepted);
                            (D, Rejected "Request Entity Too Large");
                            (notice 7 "Request Entity Too Large", Accepted)]
                        ++ tl
          ∧ ∃ o, head tl = Some (completed 7 0, o).
Proof.
  apply (handler_undelivered
           (Run.env true "my-title" (Some ("my-title.mp4"%string, 512000%N))
              (Run.refuse_delivery "Request Entity Too Large"))
           "video_low:https://example.com/watch?v=abc"
           "video_low" "https://example.com/watch?v=abc" 7 Run.start
           {| outtmpl := "%(title)s.%(ext)s";
              progress_hooks :=
                [ {| hook_chat_id := 7; hook_message_id := 0 |} ];
              restrictfilenames := true;
              format := Some "worstvideo+worstaudio/worst";
              postprocessors := Some (steps VideoLow) |}
           "my-title" "Request Entity Too Large"
           {[ "my-title.mp4" := 512000%N ]} [] 512000%N);
    (reflexivity || discriminate).
Defined.

(** ** Progress hook, in full *)



(** ** Progress bar, in full *)





(** X19. Read as a double, a percentage with one fractional digit fills
    one more cell every five percent: for [k] tenths, from 0.0 to 100.0,
    the binary64 count is the quotient of [k] by 50. *)
Theorem tenths_fill_every_five_percent (k : Z) :
  0 ≤ k ≤ 1000 →
  Binary64.filled_length (Binary64.of_tenths k) default_width = Some (k / 50).
Proof.
  intros Hk. rewrite binary64_tenths by done. f_equal.
  unfold filled_length, default_width, Qfloor. simpl.
  change (Z.pos (1 * 10 * 100)) with 1000.
  symmetry. apply Z.div_unique with (r := 20 * (k mod 50)).
  - left. pose proof (Z.mod_pos_bound k 50). lia.
  - pose proof (Z.div_mod k 50). lia.
Qed.

Lemma tenths_fill_every_five_percent_witness :
  Binary64.filled_length (Binary64.of_tenths 453) default_width
  = Some (453 / 50).
Proof. apply (tenths_fill_every_five_percent 453). lia. Defined.

(** ** Delivery and greeting *)

(** X20. [send_file] leaves the files alone, and a rejected delivery does
    not leave it: it returns normally when the delivery is accepted, and
    also when the delivery is rejected and the notice about it is
    accepted.  It raises only when the notice is rejected too, with the
    reason of that second rejection. *)
Theorem send_file_outcomes (E : Env) (chat_id : Z) (file option : string)
    (w : World) :
  let '(r, w') := send_file E chat_id file option w in
  let D := delivery option chat_id file in
  files w' = files w
  ∧ ((r = Ok tt ∧ calls w' = calls w ++ [(D, Accepted)]
        ∧ log w' = log w ++ [(INFO, "File sent successfully: " +:+ file)])
     ∨ (∃ r1, r = Ok tt
          ∧ calls w' = calls w ++ [(D, Rejected r1);
                                   (notice chat_id r1, Accepted)])
     ∨ (∃ r1 r2, r = Raise (TelegramAPIError r2)
          ∧ calls w' = calls w ++ [(D, Rejected r1);
                                   (notice chat_id r1, Rejected r2)])).
Proof.
  unfold send_file, delivery, notice. run.
  destruct (Py.startswith option "video"); simpl.
  - destruct (sink E (calls w) (SendVideo chat_id file)) as [|r1]; simpl.
    + split; [done|]. by left.
    + destruct (sink E _ _) as [|r2]; simpl; (split; [done|]); right;
        [left; exists r1|right; exists r1, r2];
        by rewrite <- app_assoc.
  - destruct (sink E (calls w) (SendAudio chat_id file)) as [|r1]; simpl.
    + split; [done|]. by left.
    + destruct (sink E _ _) as [|r2]; simpl; (split; [done|]); right;
        [left; exists r1|right; exists r1, r2];
        by rewrite <- app_assoc.
Qed.

(** X21. [send_welcome] makes one request, the greeting without a
    keyboard, and logs the start of the user only after the chat has
    accepted it; when the chat rejects the greeting the handler raises and
    nothing is logged. *)
Theorem send_welcome_outcomes (E : Env) (chat_id user_id : Z) (w : World) :
  let c := SendMessage chat_id GREETING None in
  let '(r, w') := send_welcome E chat_id user_id w in
  files w' = files w
  ∧ match sink E (calls w) c with
    | Accepted =>
        r = Ok tt ∧ calls w' = calls w ++ [(c, Accepted)]
        ∧ log w' = log w ++ [(INFO, "User " +:+ pretty user_id
                                      +:+ " started the bot")]
    | Rejected reason =>
        r = Raise (TelegramAPIError reason)
        ∧ calls w' = calls w ++ [(c, Rejected reason)]
        ∧ log w' = log w
    end.
Proof.
  unfold send_welcome, GREETING. run.
  by destruct (sink E (calls w) _).
Qed.



(** ** The count of filled cells in binary64, in range *)

(** X23. Computed in binary64 from any double between 0 and 100, the
    count of filled cells is between 0 and 20, so the bar keeps its width
    whatever the rounding of the product does. *)
Theorem binary64_count_in_range (p : spec_float) (q : Q) :
  valid_binary Binary64.prec Binary64.emax p = true →
  Binary64.value p = Some q →
  (0 <= q <= 100)%Q →
  ∃ k, Binary64.filled_length p default_width = Some k ∧ 0 ≤ k ≤ 20.
Proof.
  intros Hvalid Hq Hrange. eexists.
  split; [by apply binary64_filled_length|by apply filled_length_bounds].
Qed.

Lemma binary64_count_in_range_witness :
  ∃ k, Binary64.filled_length (Binary64.of_tenths 999) default_width = Some k
       ∧ 0 ≤ k ≤ 20.
Proof.
  apply (binary64_count_in_range (Binary64.of_tenths 999)
           (7029837543348634 # 70368744177664)); [reflexivity..|split; done].
Defined.
